(** * BiSeNetV1 (models/bisenetv1.py): a shallow embedding of the module graph

    Tensors are 4-D (batch, channel, height, width) with entries in [R]:
    exact real arithmetic stands for the framework's floating point, so
    rounding, overflow and the saturation of the sigmoid are outside the
    model. Tensors live in a store, so that the in-place additions of
    [ContextPath.forward] and the sharing of the input between the two
    branches of [BiSeNetv1.forward] are modelled as the code has them.
    Exceptions are values of [exn]; construction ([__init__]) and the forward
    pass both return in an error monad.

    The layers of the framework are modelled with the sizes the framework
    computes and the size errors it raises. Batch normalisation is the
    per-channel affine map of the layer; its refusal, while training, of an
    input with a single value per channel, and the running statistics that
    training updates inside each layer, are not modelled. The stages of the
    library's residual networks have the library's sizes, their values are
    left to the weights. *)

From Stdlib Require Import Reals Lra Lia ZArith ZifyNat.
From stdpp Require Import base strings list.

Set Default Proof Using "Type".

(** ** Exceptions and the error monad *)

Inductive exn : Type :=
| NotImplementedError
| ValueError (msg : string)
| RuntimeError.

Definition result (A : Type) : Type := (exn + A)%type.

Definition raise {A : Type} (e : exn) : result A := inl e.

Definition rbind {A B : Type} (m : result A) (k : A -> result B) : result B :=
  match m with
  | inl e => inl e
  | inr a => k a
  end.

Notation "'let*' x ':=' m 'in' k" := (rbind m (fun x => k))
  (at level 10, x binder, m at level 100, k at level 200).

(** ** Python strings *)

(** [sub in s] for Python strings: [sub] occurs in [s] as a substring. *)
Fixpoint contains (sub s : string) : bool :=
  if String.prefix sub s then true
  else match s with
       | EmptyString => false
       | String _ s' => contains sub s'
       end.

Definition newline : string := String (Ascii.ascii_of_nat 10) EmptyString.

(** ** Tensors *)

Record shape : Type := Shape { batch : nat; chans : nat; height : nat; width : nat }.

Definition entries : Type := nat -> nat -> nat -> nat -> R.

Record tensor : Type := Tensor { size : shape; data : entries }.

#[global] Instance shape_eq_dec : EqDecision shape.
Proof. solve_decision. Defined.

Definition in_bounds (s : shape) (n c h w : nat) : Prop :=
  n < batch s /\ c < chans s /\ h < height s /\ w < width s.

(** Equality of tensors as the framework sees it: same size, same entries. *)
Definition teq (a b : tensor) : Prop :=
  size a = size b /\
  forall n c h w, in_bounds (size a) n c h w -> data a n c h w = data b n c h w.

Definition all_zero (g : tensor) : Prop :=
  forall n c h w, in_bounds (size g) n c h w -> data g n c h w = 0%R.


Definition full (s : shape) (v : R) : tensor := Tensor s (fun _ _ _ _ => v).

Fixpoint sum_n (n : nat) (f : nat -> R) : R :=
  match n with
  | O => 0%R
  | S k => (sum_n k f + f k)%R
  end.

(** A layer is a callable [nn.Module]: it maps a tensor to a tensor or raises. *)
Definition layer : Type := tensor -> result tensor.

(** *** Broadcasting and element-wise arithmetic *)

Definition broadcast_dim (d1 d2 : nat) : result nat :=
  if d1 =? d2 then inr d1
  else if d1 =? 1 then inr d2
  else if d2 =? 1 then inr d1
  else raise RuntimeError.

Definition broadcast (s1 s2 : shape) : result shape :=
  let* n := broadcast_dim (batch s1) (batch s2) in
  let* c := broadcast_dim (chans s1) (chans s2) in
  let* h := broadcast_dim (height s1) (height s2) in
  let* w := broadcast_dim (width s1) (width s2) in
  inr (Shape n c h w).

(** Index into a dimension of extent [d] under broadcasting. *)
Definition bix (d i : nat) : nat := if d =? 1 then 0 else i.

Definition bdata (x : tensor) : entries :=
  fun n c h w =>
    data x (bix (batch (size x)) n) (bix (chans (size x)) c)
           (bix (height (size x)) h) (bix (width (size x)) w).

Definition pointwise2 (f : R -> R -> R) (a b : tensor) : result tensor :=
  let* s := broadcast (size a) (size b) in
  inr (Tensor s (fun n c h w => f (bdata a n c h w) (bdata b n c h w))).

(** [a * b] and [a + b] on tensors. *)
Definition mul : tensor -> tensor -> result tensor := pointwise2 Rmult.
Definition add : tensor -> tensor -> result tensor := pointwise2 Rplus.

(** The value [a] holds after [a += b]: the broadcast size must be [a]'s own. *)
Definition iadd_value (a b : tensor) : result tensor :=
  let* r := add a b in
  if decide (size r = size a) then inr r else raise RuntimeError.

Definition pointwise (f : R -> R) : layer :=
  fun x => inr (Tensor (size x) (fun n c h w => f (data x n c h w))).

(** *** torch.cat(..., dim=1) of two tensors *)

Definition cat (a b : tensor) : result tensor :=
  if decide (batch (size a) = batch (size b) /\
             height (size a) = height (size b) /\
             width (size a) = width (size b))
  then inr (Tensor (Shape (batch (size a)) (chans (size a) + chans (size b))
                          (height (size a)) (width (size a)))
                   (fun n c h w =>
                      if c <? chans (size a) then data a n c h w
                      else data b n (c - chans (size a)) h w))
  else raise RuntimeError.

(** *** nn.AdaptiveAvgPool2d(1) *)

Definition spatial_mean (x : tensor) (n c : nat) : R :=
  (sum_n (height (size x)) (fun h => sum_n (width (size x)) (fun w => data x n c h w))
   / INR (height (size x) * width (size x)))%R.

Definition AdaptiveAvgPool2d_1 : layer :=
  fun x =>
    if (chans (size x) =? 0) || (height (size x) =? 0) || (width (size x) =? 0)
    then raise RuntimeError
    else inr (Tensor (Shape (batch (size x)) (chans (size x)) 1 1)
                     (fun n c _ _ => spatial_mean x n c)).

(** *** Tensor.expand_as *)

Definition expandable (d target : nat) : bool := (d =? target) || (d =? 1).

Definition expand_as (p x : tensor) : result tensor :=
  if expandable (batch (size p)) (batch (size x)) &&
     expandable (chans (size p)) (chans (size x)) &&
     expandable (height (size p)) (height (size x)) &&
     expandable (width (size p)) (width (size x))
  then inr (Tensor (size x) (bdata p))
  else raise RuntimeError.

(** *** nn.Conv2d (square kernel, no bias, zero padding) *)

Definition conv_out (n k s p : nat) : result nat :=
  if n + 2 * p <? k then raise RuntimeError
  else inr ((n + 2 * p - k) / s + 1).

Definition padded (x : tensor) (p : nat) (n c u v : nat) : R :=
  if (p <=? u) && (u <? p + height (size x)) &&
     (p <=? v) && (v <? p + width (size x))
  then data x n c (u - p) (v - p)
  else 0%R.

Definition conv_data (cin k s p : nat) (wt : entries) (x : tensor) : entries :=
  fun n o i j =>
    sum_n cin (fun c =>
      sum_n k (fun kh =>
        sum_n k (fun kw =>
          (wt o c kh kw * padded x p n c (i * s + kh) (j * s + kw))%R))).

Definition Conv2d (cin cout k s p : nat) (wt : entries) : layer :=
  fun x =>
    if chans (size x) =? cin then
      let* h := conv_out (height (size x)) k s p in
      let* w := conv_out (width (size x)) k s p in
      inr (Tensor (Shape (batch (size x)) cout h w) (conv_data cin k s p wt x))
    else raise RuntimeError.

(** *** nn.BatchNorm2d

    Per channel the layer is the affine map [y = scale * x + shift]; the
    coefficients come from the running statistics (evaluation) or from the
    statistics of the input itself (training), so they may depend on the
    whole input. *)

Record bn_coeffs : Type := BN { bn_scale : tensor -> nat -> R; bn_shift : tensor -> nat -> R }.

Definition BatchNorm2d (num_features : nat) (bn : bn_coeffs) : layer :=
  fun x =>
    if chans (size x) =? num_features then
      inr (Tensor (size x)
                  (fun n c h w => (bn_scale bn x c * data x n c h w + bn_shift bn x c)%R))
    else raise RuntimeError.

(** *** Activations *)

Definition relu (v : R) : R := Rmax 0 v.
Definition sigmoid (v : R) : R := (1 / (1 + exp (- v)))%R.

Definition ReLU : layer := pointwise relu.
Definition Sigmoid : layer := pointwise sigmoid.

(** *** nn.Sequential *)

Definition Sequential (ls : list layer) : layer :=
  fun x => fold_left (fun acc l => rbind acc l) ls (inr x).

(** *** F.interpolate(mode='bilinear', align_corners=True) *)

(** Source cell, its neighbour and the weight of the neighbour for output
    index [i] along a dimension resized from [n_in] to [n_out]. *)
Definition src_lo (n_in n_out i : nat) : nat :=
  if n_out <=? 1 then 0 else (i * (n_in - 1)) / (n_out - 1).

Definition src_hi (n_in n_out i : nat) : nat :=
  Nat.min (src_lo n_in n_out i + 1) (n_in - 1).

Definition src_frac (n_in n_out i : nat) : R :=
  if n_out <=? 1 then 0%R
  else (INR ((i * (n_in - 1)) mod (n_out - 1)) / INR (n_out - 1))%R.

Definition bilinear (x : tensor) (h w : nat) : entries :=
  fun n c i j =>
    let hin := height (size x) in
    let win := width (size x) in
    let i0 := src_lo hin h i in let i1 := src_hi hin h i in
    let j0 := src_lo win w j in let j1 := src_hi win w j in
    let a := src_frac hin h i in let b := src_frac win w j in
    ((1 - a) * ((1 - b) * data x n c i0 j0 + b * data x n c i0 j1)
     + a * ((1 - b) * data x n c i1 j0 + b * data x n c i1 j1))%R.

Definition interpolate_size (x : tensor) (sz : nat * nat) : result tensor :=
  if (chans (size x) =? 0) || (height (size x) =? 0) || (width (size x) =? 0)
     || (fst sz =? 0) || (snd sz =? 0)
  then raise RuntimeError
  else inr (Tensor (Shape (batch (size x)) (chans (size x)) (fst sz) (snd sz))
                   (bilinear x (fst sz) (snd sz))).

Definition interpolate_scale (x : tensor) (scale_factor : nat) : result tensor :=
  interpolate_size x (scale_factor * height (size x), scale_factor * width (size x)).

(** ** The store and the monad of the forward pass

    A Python name bound to a tensor is a location of the store; every
    operator and layer call allocates its result, [a += b] overwrites the
    cell of [a]. *)

Definition loc : Type := nat.
Definition store : Type := list tensor.

Definition M (A : Type) : Type := store -> result (A * store).

Definition ret {A : Type} (a : A) : M A := fun s => inr (a, s).

Definition bind {A B : Type} (m : M A) (k : A -> M B) : M B :=
  fun s => match m s with
           | inl e => inl e
           | inr (a, s') => k a s'
           end.

Notation "x <- m ;; k" := (bind m (fun x => k))
  (at level 100, m at next level, right associativity).

Definition lift {A : Type} (r : result A) : M A :=
  fun s => match r with
           | inl e => inl e
           | inr a => inr (a, s)
           end.

Definition load (l : loc) : M tensor :=
  fun s => match s !! l with
           | Some t => inr (t, s)
           | None => raise RuntimeError
           end.

Definition alloc (t : tensor) : M loc := fun s => inr (length s, s ++ [t]).

Definition update (l : loc) (t : tensor) : M unit := fun s => inr (tt, <[l := t]> s).

(** [f(x)] for a layer [f]. *)
Definition call (f : layer) (x : loc) : M loc :=
  t <- load x ;; r <- lift (f t) ;; alloc r.

(** A binary operator that returns a new tensor. *)
Definition binop (f : tensor -> tensor -> result tensor) (a b : loc) : M loc :=
  ta <- load a ;; tb <- load b ;; r <- lift (f ta tb) ;; alloc r.

(** [a += b]. *)
Definition iadd (a b : loc) : M unit :=
  ta <- load a ;; tb <- load b ;; r <- lift (iadd_value ta tb) ;; update a r.

(** [x.size()[2:]]. *)
Definition size_2 (x : loc) : M (nat * nat) :=
  t <- load x ;; ret (height (size t), width (size t)).

Definition F_interpolate_size (x : loc) (sz : nat * nat) : M loc :=
  call (fun t => interpolate_size t sz) x.

Definition F_interpolate_scale (x : loc) (scale_factor : nat) : M loc :=
  call (fun t => interpolate_scale t scale_factor) x.

(** The tensor a computation returns, read from the final store. *)
Definition run_tensor (m : M loc) (s : store) : result tensor :=
  match m s with
  | inl e => inl e
  | inr (l, s') => match s' !! l with
                   | Some t => inr t
                   | None => raise RuntimeError
                   end
  end.

(** ** models/modules.py *)

Record conv_bn_params : Type := ConvBN { conv_weight : entries; norm : bn_coeffs }.

(** Modelled from the spec: modules.py (conv1x1, ConvBNAct and the activation
    table) is not among the sources. The spec describes conv1x1 as a 1x1
    convolution without activation, and ConvBNAct as a fused convolution +
    normalization + activation primitive that keeps the spatial size at
    stride 1 and halves it at stride 2, which fixes the padding at
    (kernel_size - 1) / 2. [hub] stands for the nonlinearities other than
    the two this file names. *)
Definition Activation (hub : string -> R -> R) (act_type : string) : layer :=
  if String.eqb act_type "relu" then ReLU
  else if String.eqb act_type "sigmoid" then Sigmoid
  else pointwise (hub act_type).

Definition conv1x1 (in_channels out_channels : nat) (wt : entries) : layer :=
  Conv2d in_channels out_channels 1 1 0 wt.

Definition ConvBNAct (hub : string -> R -> R) (in_channels out_channels kernel_size stride : nat)
    (act_type : string) (p : conv_bn_params) : layer :=
  Sequential [ Conv2d in_channels out_channels kernel_size stride
                      ((kernel_size - 1) / 2) (conv_weight p);
               BatchNorm2d out_channels (norm p);
               Activation hub act_type ].

(** ** torchvision.models.resnet

    The library's residual networks, as far as this file uses them: the
    stem, the pooling and the four stages, with the sizes the library gives
    them and with values left to the weights. *)

Module torchvision.

Inductive block : Type := BasicBlock | Bottleneck.

Definition expansion (b : block) : nat :=
  match b with
  | BasicBlock => 1
  | Bottleneck => 4
  end.

Record weights : Type := Weights {
  w_conv1 : entries;
  w_bn1 : bn_coeffs;
  w_maxpool : tensor -> entries;
  w_layer : nat -> tensor -> entries }.

(** A block of library layers seen from outside: a size like that of a
    convolution with the given kernel, stride and padding, values [f]. *)
Definition opaque (cin cout k s p : nat) (f : tensor -> entries) : layer :=
  fun x =>
    if chans (size x) =? cin then
      let* h := conv_out (height (size x)) k s p in
      let* w := conv_out (width (size x)) k s p in
      inr (Tensor (Shape (batch (size x)) cout h w) (f x))
    else raise RuntimeError.

Definition MaxPool2d (k s p : nat) (f : tensor -> entries) : layer :=
  fun x => opaque (chans (size x)) (chans (size x)) k s p f x.

Record ResNet : Type := {
  conv1 : layer; bn1 : layer; relu : layer; maxpool : layer;
  layer1 : layer; layer2 : layer; layer3 : layer; layer4 : layer }.

Definition make (b : block) (W : weights) : ResNet :=
  let e := expansion b in
  {| conv1 := Conv2d 3 64 7 2 3 (w_conv1 W);
     bn1 := BatchNorm2d 64 (w_bn1 W);
     relu := ReLU;
     maxpool := MaxPool2d 3 2 1 (w_maxpool W);
     layer1 := opaque 64 (64 * e) 3 1 1 (w_layer W 1);
     layer2 := opaque (64 * e) (128 * e) 3 2 1 (w_layer W 2);
     layer3 := opaque (128 * e) (256 * e) 3 2 1 (w_layer W 3);
     layer4 := opaque (256 * e) (512 * e) 3 2 1 (w_layer W 4) |}.

Definition resnet18 (W : bool -> weights) (pretrained : bool) : ResNet := make BasicBlock (W pretrained).
Definition resnet34 (W : bool -> weights) (pretrained : bool) : ResNet := make BasicBlock (W pretrained).
Definition resnet50 (W : bool -> weights) (pretrained : bool) : ResNet := make Bottleneck (W pretrained).
Definition resnet101 (W : bool -> weights) (pretrained : bool) : ResNet := make Bottleneck (W pretrained).
Definition resnet152 (W : bool -> weights) (pretrained : bool) : ResNet := make Bottleneck (W pretrained).

End torchvision.

(** ** The parameters of a model: what initialisation and the download of
    the pretrained backbone supply. *)

Record parameters : Type := Parameters {
  act_hub : string -> R -> R;
  zoo : string -> bool -> torchvision.weights;
  p_spatial_0 : conv_bn_params;
  p_spatial_1 : conv_bn_params;
  p_spatial_2 : conv_bn_params;
  p_arm_16 : conv_bn_params;
  p_arm_32 : conv_bn_params;
  p_conv_16 : entries;
  p_conv_32 : entries;
  p_ffm_conv1 : conv_bn_params;
  p_ffm_conv2_0 : entries;
  p_ffm_conv2_2 : entries;
  p_seg_0 : conv_bn_params;
  p_seg_1 : entries }.

(** Python dictionaries with string keys, in insertion order. *)
Fixpoint dict_get {V : Type} (d : list (string * V)) (key : string) : option V :=
  match d with
  | [] => None
  | (k, v) :: d' => if String.eqb k key then Some v else dict_get d' key
  end.

(** ** models/bisenetv1.py *)

(** *** class SpatialPath(nn.Sequential) *)

Definition SpatialPath (hub : string -> R -> R) (in_channels out_channels : nat)
    (act_type : string) (p0 p1 p2 : conv_bn_params) : layer :=
  Sequential [ ConvBNAct hub in_channels out_channels 3 2 act_type p0;
               ConvBNAct hub out_channels out_channels 3 2 act_type p1;
               ConvBNAct hub out_channels out_channels 3 2 act_type p2 ].

(** *** class SegHead(nn.Sequential), hid_channels=128 by default *)

Definition SegHead (hub : string -> R -> R) (in_channels out_channels : nat)
    (act_type : string) (hid_channels : nat) (p0 : conv_bn_params) (w1 : entries) : layer :=
  Sequential [ ConvBNAct hub in_channels hid_channels 3 1 act_type p0;
               conv1x1 hid_channels out_channels w1 ].

(** *** class AttentionRefinementModule *)

Module AttentionRefinementModule.

Record t : Type := { pool : layer; conv : layer }.

Definition init (hub : string -> R -> R) (channels : nat) (p : conv_bn_params) : t :=
  {| pool := AdaptiveAvgPool2d_1;
     conv := ConvBNAct hub channels channels 1 1 "sigmoid" p |}.

Definition forward (self : t) (x : loc) : M loc :=
  x_pool <- call (pool self) x ;;
  x_pool <- binop expand_as x_pool x ;;
  x_pool <- call (conv self) x_pool ;;
  x <- binop mul x x_pool ;;
  ret x.

(** The gate the module multiplies its input with. *)
Definition gate (self : t) (x : tensor) : result tensor :=
  let* x_pool := pool self x in
  let* x_pool := expand_as x_pool x in
  conv self x_pool.

(** The value of [forward] as a function of the value of its argument. *)
Definition value (self : t) (x : tensor) : result tensor :=
  let* g := gate self x in
  mul x g.

End AttentionRefinementModule.

(** *** class FeatureFusionModule *)

Module FeatureFusionModule.

Record t : Type := { conv1 : layer; pool : layer; conv2 : layer }.

Definition init (hub : string -> R -> R) (in_channels out_channels : nat) (act_type : string)
    (p1 : conv_bn_params) (w0 w2 : entries) : t :=
  {| conv1 := ConvBNAct hub in_channels out_channels 3 1 act_type p1;
     pool := AdaptiveAvgPool2d_1;
     conv2 := Sequential [ conv1x1 out_channels out_channels w0;
                           ReLU;
                           conv1x1 out_channels out_channels w2;
                           Sigmoid ] |}.

Definition forward (self : t) (x_low x_high : loc) : M loc :=
  x <- binop cat x_low x_high ;;
  x <- call (conv1 self) x ;;
  x_pool <- call (pool self) x ;;
  x_pool <- binop expand_as x_pool x ;;
  x_pool <- call (conv2 self) x_pool ;;
  x_pool <- binop mul x x_pool ;;
  x <- binop add x x_pool ;;
  ret x.

(** The result of the 3x3 convolution block on the concatenation. *)
Definition fused (self : t) (x_low x_high : tensor) : result tensor :=
  let* x := cat x_low x_high in
  conv1 self x.

Definition gate (self : t) (x : tensor) : result tensor :=
  let* x_pool := pool self x in
  let* x_pool := expand_as x_pool x in
  conv2 self x_pool.

Definition value (self : t) (x_low x_high : tensor) : result tensor :=
  let* x := fused self x_low x_high in
  let* g := gate self x in
  let* xg := mul x g in
  add x xg.

End FeatureFusionModule.

(** *** class ResNet *)

Module ResNet.

Record t : Type := {
  conv1 : layer; bn1 : layer; relu : layer; maxpool : layer;
  layer1 : layer; layer2 : layer; layer3 : layer; layer4 : layer }.

Definition resnet_hub (Z : string -> bool -> torchvision.weights)
  : list (string * (bool -> torchvision.ResNet)) :=
  [ ("resnet18", torchvision.resnet18 (Z "resnet18"));
    ("resnet34", torchvision.resnet34 (Z "resnet34"));
    ("resnet50", torchvision.resnet50 (Z "resnet50"));
    ("resnet101", torchvision.resnet101 (Z "resnet101"));
    ("resnet152", torchvision.resnet152 (Z "resnet152")) ].

Definition unsupported (resnet_type : string) : string :=
  "Unsupported ResNet type: " +:+ resnet_type +:+ "." +:+ newline.

(** The attributes [__init__] copies from the library's network. *)
Definition wrap (resnet : torchvision.ResNet) : t :=
  {| conv1 := torchvision.conv1 resnet;
     bn1 := torchvision.bn1 resnet;
     relu := torchvision.relu resnet;
     maxpool := torchvision.maxpool resnet;
     layer1 := torchvision.layer1 resnet;
     layer2 := torchvision.layer2 resnet;
     layer3 := torchvision.layer3 resnet;
     layer4 := torchvision.layer4 resnet |}.

Definition init (Z : string -> bool -> torchvision.weights) (resnet_type : string)
    (pretrained : bool) : result t :=
  match dict_get (resnet_hub Z) resnet_type with
  | None => raise (ValueError (unsupported resnet_type))
  | Some mk =>
      let resnet := mk pretrained in
      inr (wrap resnet)
  end.

Definition forward (self : t) (x : loc) : M (loc * loc) :=
  x <- call (conv1 self) x ;;
  x <- call (bn1 self) x ;;
  x <- call (relu self) x ;;
  x <- call (maxpool self) x ;;
  x <- call (layer1 self) x ;;
  x <- call (layer2 self) x ;;
  x3 <- call (layer3 self) x ;;
  x <- call (layer4 self) x3 ;;
  ret (x, x3).

Definition value (self : t) (x : tensor) : result (tensor * tensor) :=
  let* x := conv1 self x in
  let* x := bn1 self x in
  let* x := relu self x in
  let* x := maxpool self x in
  let* x := layer1 self x in
  let* x := layer2 self x in
  let* x3 := layer3 self x in
  let* x := layer4 self x3 in
  inr (x, x3).

End ResNet.

(** *** class ContextPath *)

Module ContextPath.

Record t : Type := {
  backbone : ResNet.t;
  pool : layer;
  arm_16 : AttentionRefinementModule.t;
  arm_32 : AttentionRefinementModule.t;
  conv_16 : layer;
  conv_32 : layer }.

Definition channels (backbone_type : string) : list nat :=
  if contains "18" backbone_type || contains "34" backbone_type
  then [256; 512] else [1024; 2048].

Definition init (P : parameters) (out_channels : nat) (backbone_type act_type : string)
  : result t :=
  if contains "resnet" backbone_type then
    let* backbone := ResNet.init (zoo P) backbone_type true in
    let channels := channels backbone_type in
    inr {| backbone := backbone;
           pool := AdaptiveAvgPool2d_1;
           arm_16 := AttentionRefinementModule.init (act_hub P) (nth 0 channels 0) (p_arm_16 P);
           arm_32 := AttentionRefinementModule.init (act_hub P) (nth 1 channels 0) (p_arm_32 P);
           conv_16 := conv1x1 (nth 0 channels 0) out_channels (p_conv_16 P);
           conv_32 := conv1x1 (nth 1 channels 0) out_channels (p_conv_32 P) |}
  else raise NotImplementedError.

Definition forward (self : t) (x : loc) : M loc :=
  xs <- ResNet.forward (backbone self) x ;;
  let x_32 := fst xs in
  let x_16 := snd xs in
  x_32_avg <- call (pool self) x_32 ;;
  x_32 <- AttentionRefinementModule.forward (arm_32 self) x_32 ;;
  _ <- iadd x_32 x_32_avg ;;
  x_32 <- call (conv_32 self) x_32 ;;
  x_32 <- F_interpolate_scale x_32 2 ;;
  x_16 <- AttentionRefinementModule.forward (arm_16 self) x_16 ;;
  x_16 <- call (conv_16 self) x_16 ;;
  _ <- iadd x_16 x_32 ;;
  x_16 <- F_interpolate_scale x_16 2 ;;
  ret x_16.

(** The eight steps of the design, as a function of the input's value. *)
Definition steps (self : t) (x : tensor) : result tensor :=
  (* 1. run the backbone *)
  let* xs := ResNet.value (backbone self) x in
  let raw_32 := fst xs in
  let raw_16 := snd xs in
  (* 2. global average of the raw 1/32 output *)
  let* avg_32 := pool self raw_32 in
  (* 3. attention refinement of the 1/32 output *)
  let* gated_32 := AttentionRefinementModule.value (arm_32 self) raw_32 in
  (* 4. broadcast addition of the global average *)
  let* sum_32 := iadd_value gated_32 avg_32 in
  (* 5. 1x1 projection, then bilinear 2x upsampling *)
  let* proj_32 := conv_32 self sum_32 in
  let* up_32 := interpolate_scale proj_32 2 in
  (* 6. attention refinement and 1x1 projection of the 1/16 output *)
  let* gated_16 := AttentionRefinementModule.value (arm_16 self) raw_16 in
  let* proj_16 := conv_16 self gated_16 in
  (* 7. add the result of step 5 into the result of step 6 *)
  let* sum_16 := iadd_value proj_16 up_32 in
  (* 8. bilinear 2x upsampling of the sum *)
  interpolate_scale sum_16 2.

End ContextPath.

(** *** class BiSeNetv1 *)

Module BiSeNetv1.

Record t : Type := {
  spatial_path : layer;
  context_path : ContextPath.t;
  ffm : FeatureFusionModule.t;
  seg_head : layer }.

Definition init (P : parameters) (num_class n_channel : nat) (backbone_type act_type : string)
  : result t :=
  let spatial_path :=
    SpatialPath (act_hub P) n_channel 128 act_type
                (p_spatial_0 P) (p_spatial_1 P) (p_spatial_2 P) in
  let* context_path := ContextPath.init P 256 backbone_type act_type in
  let ffm :=
    FeatureFusionModule.init (act_hub P) 384 256 act_type
                             (p_ffm_conv1 P) (p_ffm_conv2_0 P) (p_ffm_conv2_2 P) in
  let seg_head := SegHead (act_hub P) 256 num_class act_type 128 (p_seg_0 P) (p_seg_1 P) in
  inr {| spatial_path := spatial_path;
         context_path := context_path;
         ffm := ffm;
         seg_head := seg_head |}.

Definition forward (self : t) (x : loc) : M loc :=
  sz <- size_2 x ;;
  x_s <- call (spatial_path self) x ;;
  x_c <- ContextPath.forward (context_path self) x ;;
  x <- FeatureFusionModule.forward (ffm self) x_s x_c ;;
  x <- call (seg_head self) x ;;
  x <- F_interpolate_size x sz ;;
  ret x.

(** [forward] with the two branches evaluated in the other order. *)
Definition forward_context_first (self : t) (x : loc) : M loc :=
  sz <- size_2 x ;;
  x_c <- ContextPath.forward (context_path self) x ;;
  x_s <- call (spatial_path self) x ;;
  x <- FeatureFusionModule.forward (ffm self) x_s x_c ;;
  x <- call (seg_head self) x ;;
  x <- F_interpolate_size x sz ;;
  ret x.

Definition value (self : t) (x : tensor) : result tensor :=
  let* x_s := spatial_path self x in
  let* x_c := ContextPath.steps (context_path self) x in
  let* y := FeatureFusionModule.value (ffm self) x_s x_c in
  let* y := seg_head self y in
  interpolate_size y (height (size x), width (size x)).

End BiSeNetv1.

(** * Vocabulary of the statements *)

(** ** Running the store monad *)

(** [exec m s r Q]: from store [s] the computation [m] fails like [r], or
    returns a value and a store that [Q] relates to the value of [r]. *)
Definition exec {A B : Type} (m : M A) (s : store) (r : result B)
    (Q : B -> A -> store -> Prop) : Prop :=
  match r with
  | inl e => m s = inl e
  | inr b => exists a s', m s = inr (a, s') /\ Q b a s'
  end.

(** The result is the newest cell of a store that extends [base]. *)
Definition on_top (base : store) (t : tensor) (l : loc) (s' : store) : Prop :=
  exists ext, l = length (base ++ ext) /\ s' = (base ++ ext) ++ [t].

(** [m] computes the tensor value [r] from [s] and leaves [s] untouched. *)
Definition refines (m : M loc) (s : store) (r : result tensor) : Prop :=
  exec m s r (on_top s).

(** Both results of the backbone are cells of a store that extends [base]. *)
Definition both_in (base : store) (ts : tensor * tensor) (ls : loc * loc) (s' : store) : Prop :=
  base `prefix_of` s' /\ s' !! fst ls = Some (fst ts) /\ s' !! snd ls = Some (snd ts).

(** The tensor a run returns, if it returns. *)
Definition outcome (r : result tensor) : option tensor :=
  match r with
  | inl _ => None
  | inr t => Some t
  end.

(** The size of the tensor a run returns. *)
Definition result_size (r : result tensor) : result shape :=
  let* t := r in inr (size t).

(** The value of [forward_context_first]. *)
Definition value_context_first (self : BiSeNetv1.t) (x : tensor) : result tensor :=
  let* x_c := ContextPath.steps (BiSeNetv1.context_path self) x in
  let* x_s := BiSeNetv1.spatial_path self x in
  let* y := FeatureFusionModule.value (BiSeNetv1.ffm self) x_s x_c in
  let* y := BiSeNetv1.seg_head self y in
  interpolate_size y (height (size x), width (size x)).

(** ** Sizes and gates *)

(** [f] accepts every tensor of size [P] and returns one of size [Q]. *)
Definition maps (f : layer) (P Q : shape) : Prop :=
  forall x, size x = P -> exists y, f x = inr y /\ size y = Q.

(** The entries of [t] do not depend on the position inside the image. *)
Definition spatially_constant (t : tensor) : Prop :=
  forall n c h w h' w',
    h < height (size t) -> w < width (size t) ->
    h' < height (size t) -> w' < width (size t) ->
    data t n c h w = data t n c h' w'.

Definition keeps_constant (f : layer) : Prop :=
  forall x y, f x = inr y -> spatially_constant x -> spatially_constant y.

(** ** Constructed models *)

Definition supported : list string :=
  ["resnet18"; "resnet34"; "resnet50"; "resnet101"; "resnet152"].

(** The block type of the library's constructor for a supported name. *)
Definition block_of (backbone_type : string) : torchvision.block :=
  if String.eqb backbone_type "resnet18" || String.eqb backbone_type "resnet34"
  then torchvision.BasicBlock else torchvision.Bottleneck.

(** The context path that [__init__] builds on a backbone of block type [b]. *)
Definition built_context_path (P : parameters) (out_channels : nat)
    (b : torchvision.block) (W : torchvision.weights) : ContextPath.t :=
  {| ContextPath.backbone := ResNet.wrap (torchvision.make b W);
     ContextPath.pool := AdaptiveAvgPool2d_1;
     ContextPath.arm_16 :=
       AttentionRefinementModule.init (act_hub P) (256 * torchvision.expansion b) (p_arm_16 P);
     ContextPath.arm_32 :=
       AttentionRefinementModule.init (act_hub P) (512 * torchvision.expansion b) (p_arm_32 P);
     ContextPath.conv_16 := conv1x1 (256 * torchvision.expansion b) out_channels (p_conv_16 P);
     ContextPath.conv_32 := conv1x1 (512 * torchvision.expansion b) out_channels (p_conv_32 P) |}.

Definition built (P : parameters) (num_class n_channel : nat) (act_type : string)
    (cp : ContextPath.t) : BiSeNetv1.t :=
  {| BiSeNetv1.spatial_path :=
       SpatialPath (act_hub P) n_channel 128 act_type
                   (p_spatial_0 P) (p_spatial_1 P) (p_spatial_2 P);
     BiSeNetv1.context_path := cp;
     BiSeNetv1.ffm :=
       FeatureFusionModule.init (act_hub P) 384 256 act_type
                                (p_ffm_conv1 P) (p_ffm_conv2_0 P) (p_ffm_conv2_2 P);
     BiSeNetv1.seg_head :=
       SegHead (act_hub P) 256 num_class act_type 128 (p_seg_0 P) (p_seg_1 P) |}.

(** ** Concrete parameters and modules for the examples *)

Definition unit_conv_bn : conv_bn_params :=
  ConvBN (fun _ _ _ _ => 1%R) (BN (fun _ _ => 1%R) (fun _ _ => 0%R)).

Definition unit_weights : torchvision.weights :=
  torchvision.Weights (fun _ _ _ _ => 1%R) (BN (fun _ _ => 1%R) (fun _ _ => 0%R))
                      (fun _ _ _ _ _ => 1%R) (fun _ _ _ _ _ _ => 1%R).

Definition unit_parameters : parameters :=
  {| act_hub := fun _ v => v;
     zoo := fun _ _ => unit_weights;
     p_spatial_0 := unit_conv_bn; p_spatial_1 := unit_conv_bn; p_spatial_2 := unit_conv_bn;
     p_arm_16 := unit_conv_bn; p_arm_32 := unit_conv_bn;
     p_conv_16 := fun _ _ _ _ => 1%R; p_conv_32 := fun _ _ _ _ => 1%R;
     p_ffm_conv1 := unit_conv_bn;
     p_ffm_conv2_0 := fun _ _ _ _ => 1%R; p_ffm_conv2_2 := fun _ _ _ _ => 1%R;
     p_seg_0 := unit_conv_bn; p_seg_1 := fun _ _ _ _ => 1%R |}.

(** The fusion module with its sublayers replaced: no convolution after the
    concatenation, and a gate that is zero everywhere. *)
Definition zero_gate_ffm : FeatureFusionModule.t :=
  {| FeatureFusionModule.conv1 := fun t => inr t;
     FeatureFusionModule.pool := AdaptiveAvgPool2d_1;
     FeatureFusionModule.conv2 := fun t => inr (full (size t) 0%R) |}.

(** ** Accepted sizes *)

(** [h / d] rounded up. *)
Definition ceil_div (h d : nat) : nat := (h + d - 1) / d.

(** A height or width on which the two branches of the model agree at 1/8
    resolution: positive, and at most 7 below a multiple of 32. *)
Definition near_32 (h : nat) : bool :=
  (0 <? h) && ((h mod 32 =? 0) || (25 <=? h mod 32)).

(** A height or width on which the two stages of the context path agree at
    1/16 resolution: positive, and at most 15 below a multiple of 32. *)
Definition near_32_by_16 (h : nat) : bool :=
  (0 <? h) && ((h mod 32 =? 0) || (17 <=? h mod 32)).

(** The sizes of two tensors that can be concatenated along the channels
    into [channels] channels of at least one pixel. *)
Definition fusible (a b : shape) (channels : nat) : bool :=
  (batch a =? batch b) && (height a =? height b) && (width a =? width b)
  && (chans a + chans b =? channels) && (0 <? height a) && (0 <? width a).

(** The size a layer returns, or the size error it raises. *)
Definition size_if (ok : bool) (sh : shape) : result shape :=
  if ok then inr sh else raise RuntimeError.

(** * Verification *)

(** ** Running the store monad *)

Lemma exec_bind {A B C D : Type} (m : M A) (k : A -> M C) (s : store)
    (r : result B) (g : B -> result D) (Q : B -> A -> store -> Prop)
    (Q' : D -> C -> store -> Prop) :
  exec m s r Q ->
  (forall b a s', r = inr b -> Q b a s' -> exec (k a) s' (g b) Q') ->
  exec (bind m k) s (rbind r g) Q'.
Proof.
  intros Hm Hk. destruct r as [e | b]; simpl in *.
  - unfold bind. now rewrite Hm.
  - destruct Hm as (a & s' & Hrun & HQ).
    specialize (Hk b a s' eq_refl HQ).
    unfold exec in *. unfold bind. rewrite Hrun. exact Hk.
Qed.

Lemma exec_ret {A B : Type} (a : A) (b : B) (s : store) (Q : B -> A -> store -> Prop) :
  Q b a s -> exec (ret a) s (inr b) Q.
Proof. intros HQ. exists a, s. split; [reflexivity | exact HQ]. Qed.

Lemma exec_call (f : layer) (x : loc) (s : store) (t : tensor) :
  s !! x = Some t ->
  exec (call f x) s (f t) (fun r l s' => l = length s /\ s' = s ++ [r]).
Proof.
  intros Hx. unfold exec, call, bind, load, lift, alloc. rewrite Hx.
  destruct (f t) as [e | r]; [reflexivity |].
  exists (length s), (s ++ [r]). auto.
Qed.

Lemma exec_binop (f : tensor -> tensor -> result tensor) (a b : loc) (s : store)
    (ta tb : tensor) :
  s !! a = Some ta -> s !! b = Some tb ->
  exec (binop f a b) s (f ta tb) (fun r l s' => l = length s /\ s' = s ++ [r]).
Proof.
  intros Ha Hb. unfold exec, binop, bind, load, lift, alloc. rewrite Ha, Hb.
  destruct (f ta tb) as [e | r]; [reflexivity |].
  exists (length s), (s ++ [r]). auto.
Qed.

Lemma exec_iadd (a b : loc) (s : store) (ta tb : tensor) :
  s !! a = Some ta -> s !! b = Some tb ->
  exec (iadd a b) s (iadd_value ta tb) (fun r _ s' => s' = <[a := r]> s).
Proof.
  intros Ha Hb. unfold exec, iadd, bind, load, lift, update. rewrite Ha, Hb.
  destruct (iadd_value ta tb) as [e | r]; [reflexivity |].
  exists tt, (<[a := r]> s). auto.
Qed.

Lemma exec_interpolate_scale (x : loc) (k : nat) (s : store) (t : tensor) :
  s !! x = Some t ->
  exec (F_interpolate_scale x k) s (interpolate_scale t k)
       (fun r l s' => l = length s /\ s' = s ++ [r]).
Proof. intros Hx. exact (exec_call (fun t => interpolate_scale t k) x s t Hx). Qed.

Lemma exec_interpolate_size (x : loc) (sz : nat * nat) (s : store) (t : tensor) :
  s !! x = Some t ->
  exec (F_interpolate_size x sz) s (interpolate_size t sz)
       (fun r l s' => l = length s /\ s' = s ++ [r]).
Proof. intros Hx. exact (exec_call (fun t => interpolate_size t sz) x s t Hx). Qed.

Lemma lookup_top (s : store) (t : tensor) : (s ++ [t]) !! length s = Some t.
Proof. apply list_lookup_middle. reflexivity. Qed.

Lemma lookup_below (s ext : store) (l : loc) (t : tensor) :
  s !! l = Some t -> (s ++ ext) !! l = Some t.
Proof. apply lookup_app_l_Some. Qed.

Lemma insert_top (s : store) (t v : tensor) : <[length s := v]> (s ++ [t]) = s ++ [v].
Proof.
  replace (length s) with (length s + 0) by lia.
  rewrite insert_app_r. reflexivity.
Qed.

Lemma on_top_here (base s : store) (t : tensor) :
  base `prefix_of` s -> on_top base t (length s) (s ++ [t]).
Proof. intros [ext ->]. exists ext. auto. Qed.

Lemma refines_run (m : M loc) (s : store) (r : result tensor) :
  refines m s r -> run_tensor m s = r.
Proof.
  unfold refines, exec, run_tensor. destruct r as [e | t].
  - intros ->. reflexivity.
  - intros (l & s' & -> & ext & -> & ->). now rewrite lookup_top.
Qed.

(** What a completed run leaves behind: the old cells, then new ones. *)
Lemma refines_frame (m : M loc) (s : store) (t : tensor) :
  refines m s (inr t) ->
  exists l s', m s = inr (l, s') /\ s `prefix_of` s' /\ s' !! l = Some t /\ length s <= l.
Proof.
  intros (l & s' & Hrun & ext & -> & ->). eexists _, _. split; [exact Hrun |].
  split; [| split].
  - rewrite <- app_assoc. now apply prefix_app_r.
  - apply lookup_top.
  - rewrite length_app. lia.
Qed.

Lemma rbind_assoc {A B C : Type} (m : result A) (f : A -> result B) (g : B -> result C) :
  rbind (rbind m f) g = rbind m (fun a => rbind (f a) g).
Proof. destruct m; reflexivity. Qed.

Lemma rbind_inr {A : Type} (m : result A) : rbind m inr = m.
Proof. destruct m; reflexivity. Qed.

Lemma exec_bind_last {A B C : Type} (m : M A) (k : A -> M C) (s : store)
    (r : result B) (Q : B -> A -> store -> Prop) (Q' : B -> C -> store -> Prop) :
  exec m s r Q ->
  (forall b a s', r = inr b -> Q b a s' -> exec (k a) s' (inr b) Q') ->
  exec (bind m k) s r Q'.
Proof.
  intros Hm Hk. rewrite <- (rbind_inr r). eapply exec_bind; eauto.
Qed.

(** Symbolic execution: facts about the cells of a store are carried over
    to the stores that extend it. *)
Ltac lift_over σ e :=
  repeat match goal with
  | H : σ !! ?l = Some ?u |- _ =>
      lazymatch goal with
      | _ : (σ ++ e) !! l = Some u |- _ => fail
      | _ => pose proof (lookup_below σ e l u H)
      end
  | H : ?b `prefix_of` σ |- _ =>
      lazymatch goal with
      | _ : b `prefix_of` (σ ++ e) |- _ => fail
      | _ => pose proof (prefix_app_r b σ e H)
      end
  end.

Ltac after_alloc :=
  lazymatch goal with
  | |- exec _ (?σ ++ [?r]) _ _ => lift_over σ [r]; pose proof (lookup_top σ r)
  end.

Ltac bind_with lem :=
  rewrite ?rbind_assoc;
  first [ eapply exec_bind; [ eapply lem; eassumption | ]
        | eapply exec_bind_last; [ eapply lem; eassumption | ] ].

(** A layer call or an operator: the result is allocated on top. *)
Ltac step_alloc lem :=
  bind_with lem;
  let E := fresh "E" in
  intros ? ? ? E [-> ->]; cbv beta zeta; after_alloc.

(** [a += b] where [a] is the newest cell. *)
Ltac step_iadd :=
  bind_with exec_iadd;
  let E := fresh "E" in
  intros ? ? ? E ->; cbv beta zeta; rewrite insert_top; after_alloc.

(** A call of another [forward] whose refinement lemma is [lem]. *)
Ltac step_forward lem :=
  bind_with lem;
  let E := fresh "E" in
  let ext := fresh "ext" in
  intros ? ? ? E (ext & -> & ->); cbv beta zeta;
  lazymatch goal with
  | |- exec _ ((?σ ++ ext) ++ [_]) _ _ => lift_over σ ext
  end;
  after_alloc.

Ltac finish_top :=
  apply exec_ret; apply on_top_here; assumption.

Lemma ARM_forward_refines (self : AttentionRefinementModule.t) (s : store) (x : loc)
    (t : tensor) :
  s !! x = Some t ->
  refines (AttentionRefinementModule.forward self x) s (AttentionRefinementModule.value self t).
Proof.
  intros Hx. assert (Hs : s `prefix_of` s) by reflexivity.
  unfold refines, AttentionRefinementModule.forward, AttentionRefinementModule.value,
    AttentionRefinementModule.gate.
  step_alloc exec_call.
  step_alloc exec_binop.
  step_alloc exec_call.
  step_alloc exec_binop.
  finish_top.
Qed.

Lemma FFM_forward_refines (self : FeatureFusionModule.t) (s : store) (x_low x_high : loc)
    (t_low t_high : tensor) :
  s !! x_low = Some t_low -> s !! x_high = Some t_high ->
  refines (FeatureFusionModule.forward self x_low x_high) s
          (FeatureFusionModule.value self t_low t_high).
Proof.
  intros Hl Hh. assert (Hs : s `prefix_of` s) by reflexivity.
  unfold refines, FeatureFusionModule.forward, FeatureFusionModule.value,
    FeatureFusionModule.fused, FeatureFusionModule.gate.
  step_alloc exec_binop.
  step_alloc exec_call.
  step_alloc exec_call.
  step_alloc exec_binop.
  step_alloc exec_call.
  step_alloc exec_binop.
  step_alloc exec_binop.
  finish_top.
Qed.

Lemma ResNet_forward_refines (self : ResNet.t) (s : store) (x : loc) (t : tensor) :
  s !! x = Some t ->
  exec (ResNet.forward self x) s (ResNet.value self t) (both_in s).
Proof.
  intros Hx. assert (Hs : s `prefix_of` s) by reflexivity.
  unfold ResNet.forward, ResNet.value.
  do 8 step_alloc exec_call.
  apply exec_ret. unfold both_in. simpl. auto.
Qed.

Lemma ContextPath_forward_refines (self : ContextPath.t) (s : store) (x : loc) (t : tensor) :
  s !! x = Some t ->
  refines (ContextPath.forward self x) s (ContextPath.steps self t).
Proof.
  intros Hx. assert (Hs : s `prefix_of` s) by reflexivity.
  unfold refines, ContextPath.forward, ContextPath.steps.
  bind_with ResNet_forward_refines.
  intros [raw_32 raw_16] [x_32 x_16] s1 E (Hs1 & H32 & H16). simpl in H32, H16.
  cbv beta zeta. simpl fst. simpl snd.
  step_alloc exec_call.
  step_forward ARM_forward_refines.
  step_iadd.
  step_alloc exec_call.
  step_alloc exec_interpolate_scale.
  step_forward ARM_forward_refines.
  step_alloc exec_call.
  step_iadd.
  step_alloc exec_interpolate_scale.
  finish_top.
Qed.

Lemma exec_size_2_bind {A B : Type} (x : loc) (k : nat * nat -> M A) (s : store)
    (t : tensor) (r : result B) (Q : B -> A -> store -> Prop) :
  s !! x = Some t ->
  exec (k (height (size t), width (size t))) s r Q ->
  exec (bind (size_2 x) k) s r Q.
Proof.
  intros Hx Hk. unfold exec in *. unfold bind at 1. unfold size_2, bind, load, ret.
  rewrite Hx. exact Hk.
Qed.

Lemma BiSeNetv1_forward_refines (self : BiSeNetv1.t) (s : store) (x : loc) (t : tensor) :
  s !! x = Some t ->
  refines (BiSeNetv1.forward self x) s (BiSeNetv1.value self t).
Proof.
  intros Hx. assert (Hs : s `prefix_of` s) by reflexivity.
  unfold refines, BiSeNetv1.forward, BiSeNetv1.value.
  eapply exec_size_2_bind; [eassumption |].
  step_alloc exec_call.
  step_forward ContextPath_forward_refines.
  step_forward FFM_forward_refines.
  step_alloc exec_call.
  step_alloc exec_interpolate_size.
  finish_top.
Qed.

Lemma BiSeNetv1_context_first_refines (self : BiSeNetv1.t) (s : store) (x : loc) (t : tensor) :
  s !! x = Some t ->
  refines (BiSeNetv1.forward_context_first self x) s (value_context_first self t).
Proof.
  intros Hx. assert (Hs : s `prefix_of` s) by reflexivity.
  unfold refines, BiSeNetv1.forward_context_first, value_context_first.
  eapply exec_size_2_bind; [eassumption |].
  step_forward ContextPath_forward_refines.
  step_alloc exec_call.
  step_forward FFM_forward_refines.
  step_alloc exec_call.
  step_alloc exec_interpolate_size.
  finish_top.
Qed.

(** ** Sizes of the primitive layers *)

Arguments conv_data : simpl never.
Arguments spatial_mean : simpl never.
Arguments bilinear : simpl never.
Arguments bdata : simpl never.

Lemma conv_out_half (m k p : nat) :
  0 < m -> (k = 3 /\ p = 1) \/ (k = 7 /\ p = 3) -> conv_out (2 * m) k 2 p = inr m.
Proof.
  intros Hm Hk. unfold conv_out.
  destruct (Nat.ltb_spec (2 * m + 2 * p) k) as [Hlt | Hge]; [lia |].
  f_equal.
  assert (Hd : (2 * m + 2 * p - k) / 2 = m - 1).
  { symmetry. apply (Nat.div_unique _ 2 (m - 1) 1); lia. }
  rewrite Hd. lia.
Qed.

Lemma conv_out_same (m k : nat) :
  0 < m -> k = 1 \/ k = 3 -> conv_out m k 1 ((k - 1) / 2) = inr m.
Proof.
  intros Hm [-> | ->].
  - change ((1 - 1) / 2) with 0. unfold conv_out.
    destruct (Nat.ltb_spec (m + 2 * 0) 1); [lia |]. f_equal. rewrite Nat.div_1_r. lia.
  - change ((3 - 1) / 2) with 1. unfold conv_out.
    destruct (Nat.ltb_spec (m + 2 * 1) 3); [lia |]. f_equal. rewrite Nat.div_1_r. lia.
Qed.

Lemma Conv2d_maps (cin cout k s p : nat) (wt : entries) (n h w h' w' : nat) :
  conv_out h k s p = inr h' -> conv_out w k s p = inr w' ->
  maps (Conv2d cin cout k s p wt) (Shape n cin h w) (Shape n cout h' w').
Proof.
  intros Hh Hw x Hx. unfold Conv2d. rewrite Hx. simpl.
  rewrite Nat.eqb_refl, Hh, Hw. simpl. eauto.
Qed.

Lemma opaque_maps (cin cout k s p : nat) (f : tensor -> entries) (n h w h' w' : nat) :
  conv_out h k s p = inr h' -> conv_out w k s p = inr w' ->
  maps (torchvision.opaque cin cout k s p f) (Shape n cin h w) (Shape n cout h' w').
Proof.
  intros Hh Hw x Hx. unfold torchvision.opaque. rewrite Hx. simpl.
  rewrite Nat.eqb_refl, Hh, Hw. simpl. eauto.
Qed.

Lemma MaxPool2d_maps (k s p : nat) (f : tensor -> entries) (n c h w h' w' : nat) :
  conv_out h k s p = inr h' -> conv_out w k s p = inr w' ->
  maps (torchvision.MaxPool2d k s p f) (Shape n c h w) (Shape n c h' w').
Proof.
  intros Hh Hw x Hx. unfold torchvision.MaxPool2d.
  rewrite Hx. simpl. now apply (opaque_maps c c k s p f n h w h' w').
Qed.

Lemma BatchNorm2d_maps (bn : bn_coeffs) (n c h w : nat) :
  maps (BatchNorm2d c bn) (Shape n c h w) (Shape n c h w).
Proof.
  intros x Hx. unfold BatchNorm2d. rewrite Hx. simpl.
  rewrite Nat.eqb_refl. eauto.
Qed.

Lemma pointwise_maps (f : R -> R) (P : shape) : maps (pointwise f) P P.
Proof. intros x Hx. unfold pointwise. eauto. Qed.

Lemma Activation_pointwise (hub : string -> R -> R) (act_type : string) :
  exists f, Activation hub act_type = pointwise f.
Proof.
  unfold Activation, ReLU, Sigmoid.
  destruct (String.eqb act_type "relu"); [eauto |].
  destruct (String.eqb act_type "sigmoid"); eauto.
Qed.

Lemma Activation_maps (hub : string -> R -> R) (act_type : string) (P : shape) :
  maps (Activation hub act_type) P P.
Proof.
  destruct (Activation_pointwise hub act_type) as [f ->]. apply pointwise_maps.
Qed.

Lemma fold_rbind_inl (ls : list layer) (e : exn) :
  fold_left (fun acc l => rbind acc l) ls (inl e) = inl e.
Proof. induction ls as [| l ls IH]; simpl; [reflexivity | exact IH]. Qed.

Lemma Sequential_cons (f : layer) (fs : list layer) (x : tensor) :
  Sequential (f :: fs) x = rbind (f x) (Sequential fs).
Proof.
  unfold Sequential. simpl. destruct (f x) as [e | y]; simpl; [| reflexivity].
  apply fold_rbind_inl.
Qed.

Lemma Sequential_nil (x : tensor) : Sequential [] x = inr x.
Proof. reflexivity. Qed.

Lemma maps_nil (P : shape) : maps (Sequential []) P P.
Proof. intros x Hx. rewrite Sequential_nil. eauto. Qed.

Lemma maps_cons (f : layer) (fs : list layer) (P Q T : shape) :
  maps f P Q -> maps (Sequential fs) Q T -> maps (Sequential (f :: fs)) P T.
Proof.
  intros Hf Hfs x Hx. rewrite Sequential_cons.
  destruct (Hf x Hx) as (y & -> & Hy). simpl. now apply Hfs.
Qed.

Lemma ConvBNAct_maps (hub : string -> R -> R) (cin cout k s : nat) (act_type : string)
    (p : conv_bn_params) (n h w h' w' : nat) :
  conv_out h k s ((k - 1) / 2) = inr h' -> conv_out w k s ((k - 1) / 2) = inr w' ->
  maps (ConvBNAct hub cin cout k s act_type p) (Shape n cin h w) (Shape n cout h' w').
Proof.
  intros Hh Hw. unfold ConvBNAct.
  eapply maps_cons; [eapply Conv2d_maps; eassumption |].
  eapply maps_cons; [apply BatchNorm2d_maps |].
  eapply maps_cons; [apply Activation_maps |].
  apply maps_nil.
Qed.

Lemma conv1x1_maps (cin cout : nat) (wt : entries) (n h w : nat) :
  0 < h -> 0 < w -> maps (conv1x1 cin cout wt) (Shape n cin h w) (Shape n cout h w).
Proof.
  intros Hh Hw. unfold conv1x1.
  apply Conv2d_maps; apply (conv_out_same _ 1); auto.
Qed.

Lemma SpatialPath_maps (hub : string -> R -> R) (cin cout : nat) (act_type : string)
    (p0 p1 p2 : conv_bn_params) (n h w : nat) :
  0 < h -> 0 < w ->
  maps (SpatialPath hub cin cout act_type p0 p1 p2)
       (Shape n cin (8 * h) (8 * w)) (Shape n cout h w).
Proof.
  intros Hh Hw. unfold SpatialPath.
  replace (8 * h) with (2 * (2 * (2 * h))) by lia.
  replace (8 * w) with (2 * (2 * (2 * w))) by lia.
  eapply maps_cons; [apply ConvBNAct_maps; apply conv_out_half; (lia || auto) |].
  eapply maps_cons; [apply ConvBNAct_maps; apply conv_out_half; (lia || auto) |].
  eapply maps_cons; [apply ConvBNAct_maps; apply conv_out_half; (lia || auto) |].
  apply maps_nil.
Qed.

Lemma SegHead_maps (hub : string -> R -> R) (cin cout : nat) (act_type : string)
    (hid : nat) (p0 : conv_bn_params) (w1 : entries) (n h w : nat) :
  0 < h -> 0 < w ->
  maps (SegHead hub cin cout act_type hid p0 w1) (Shape n cin h w) (Shape n cout h w).
Proof.
  intros Hh Hw. unfold SegHead.
  eapply maps_cons; [apply ConvBNAct_maps; apply (conv_out_same _ 3); auto |].
  eapply maps_cons; [now apply conv1x1_maps |].
  apply maps_nil.
Qed.

(** ** Sizes and entries of the tensor operators *)

Lemma pool_eq (x : tensor) (n c h w : nat) :
  size x = Shape n c h w -> 0 < c -> 0 < h -> 0 < w ->
  AdaptiveAvgPool2d_1 x = inr (Tensor (Shape n c 1 1) (fun i j _ _ => spatial_mean x i j)).
Proof.
  intros Hx Hc Hh Hw. unfold AdaptiveAvgPool2d_1. rewrite Hx. cbn [batch chans height width].
  destruct c; [lia |]. destruct h; [lia |]. destruct w; [lia |]. reflexivity.
Qed.

Lemma expand_as_eq (p x : tensor) (n c h w : nat) :
  size p = Shape n c 1 1 -> size x = Shape n c h w ->
  expand_as p x = inr (Tensor (size x) (bdata p)).
Proof.
  intros Hp Hx. unfold expand_as, expandable. rewrite Hp, Hx.
  cbn [batch chans height width]. rewrite !Nat.eqb_refl, !orb_true_r. reflexivity.
Qed.

Lemma broadcast_dim_same (d : nat) : broadcast_dim d d = inr d.
Proof. unfold broadcast_dim. now rewrite Nat.eqb_refl. Qed.

Lemma broadcast_dim_one (d : nat) : broadcast_dim d 1 = inr d.
Proof.
  unfold broadcast_dim. destruct (d =? 1) eqn:E.
  - apply Nat.eqb_eq in E. now subst.
  - reflexivity.
Qed.

Lemma broadcast_same (s : shape) : broadcast s s = inr s.
Proof. destruct s. unfold broadcast. cbn. rewrite !broadcast_dim_same. reflexivity. Qed.

Lemma broadcast_pooled (n c h w : nat) :
  broadcast (Shape n c h w) (Shape n c 1 1) = inr (Shape n c h w).
Proof.
  unfold broadcast. cbn [batch chans height width].
  rewrite !broadcast_dim_same, !broadcast_dim_one. reflexivity.
Qed.

Lemma pointwise2_eq (f : R -> R -> R) (a b : tensor) (s : shape) :
  broadcast (size a) (size b) = inr s ->
  pointwise2 f a b = inr (Tensor s (fun n c h w => f (bdata a n c h w) (bdata b n c h w))).
Proof. intros H. unfold pointwise2. rewrite H. reflexivity. Qed.

Lemma mul_same (a b : tensor) :
  size b = size a ->
  mul a b = inr (Tensor (size a) (fun n c h w => (bdata a n c h w * bdata b n c h w)%R)).
Proof. intros H. apply pointwise2_eq. rewrite H. apply broadcast_same. Qed.

Lemma add_same (a b : tensor) :
  size b = size a ->
  add a b = inr (Tensor (size a) (fun n c h w => (bdata a n c h w + bdata b n c h w)%R)).
Proof. intros H. apply pointwise2_eq. rewrite H. apply broadcast_same. Qed.

Lemma iadd_value_eq (a b : tensor) :
  broadcast (size a) (size b) = inr (size a) ->
  iadd_value a b =
  inr (Tensor (size a) (fun n c h w => (bdata a n c h w + bdata b n c h w)%R)).
Proof.
  intros H. unfold iadd_value, add. rewrite (pointwise2_eq _ _ _ _ H).
  cbn [rbind size]. destruct (decide (size a = size a)); [reflexivity | contradiction].
Qed.

Lemma cat_eq (a b : tensor) (n c1 c2 h w : nat) :
  size a = Shape n c1 h w -> size b = Shape n c2 h w ->
  cat a b = inr (Tensor (Shape n (c1 + c2) h w)
                        (fun i c j k => if c <? c1 then data a i c j k
                                        else data b i (c - c1) j k)).
Proof.
  intros Ha Hb. unfold cat. rewrite Ha, Hb. cbn [batch chans height width].
  destruct (decide (n = n /\ h = h /\ w = w)) as [_ | Hn]; [reflexivity |].
  exfalso. apply Hn. auto.
Qed.

Lemma interpolate_size_eq (x : tensor) (n c h w h' w' : nat) :
  size x = Shape n c h w -> 0 < c -> 0 < h -> 0 < w -> 0 < h' -> 0 < w' ->
  interpolate_size x (h', w') = inr (Tensor (Shape n c h' w') (bilinear x h' w')).
Proof.
  intros Hx Hc Hh Hw Hh' Hw'. unfold interpolate_size. rewrite Hx.
  cbn [batch chans height width fst snd].
  destruct c; [lia |]. destruct h; [lia |]. destruct w; [lia |].
  destruct h'; [lia |]. destruct w'; [lia |]. reflexivity.
Qed.

Lemma interpolate_scale_maps (n c h w k : nat) :
  0 < c -> 0 < h -> 0 < w -> 0 < k ->
  maps (fun x => interpolate_scale x k) (Shape n c h w) (Shape n c (k * h) (k * w)).
Proof.
  intros Hc Hh Hw Hk x Hx. unfold interpolate_scale. rewrite Hx.
  cbn [height width]. erewrite interpolate_size_eq; eauto; nia.
Qed.

Lemma bix_lt (d i : nat) : i < d -> bix d i = i.
Proof.
  intros H. unfold bix. destruct (Nat.eqb_spec d 1) as [E | _]; [lia | reflexivity].
Qed.

(** Within bounds, broadcasting reads a tensor at the index itself. *)
Lemma bdata_in_bounds (x : tensor) (n c h w : nat) :
  in_bounds (size x) n c h w -> bdata x n c h w = data x n c h w.
Proof.
  intros (Hn & Hc & Hh & Hw). unfold bdata.
  now rewrite !bix_lt by assumption.
Qed.

(** *** AttentionRefinementModule *)

Lemma ARM_gate_maps (hub : string -> R -> R) (channels : nat) (p : conv_bn_params)
    (n h w : nat) :
  0 < channels -> 0 < h -> 0 < w ->
  maps (AttentionRefinementModule.gate (AttentionRefinementModule.init hub channels p))
       (Shape n channels h w) (Shape n channels h w).
Proof.
  intros Hc Hh Hw x Hx.
  unfold AttentionRefinementModule.gate, AttentionRefinementModule.init.
  cbn [AttentionRefinementModule.pool AttentionRefinementModule.conv].
  rewrite (pool_eq x n channels h w) by assumption. cbn [rbind].
  rewrite (expand_as_eq _ x n channels h w) by (assumption || reflexivity). cbn [rbind].
  apply (ConvBNAct_maps hub channels channels 1 1 "sigmoid" p n h w h w);
    try (apply (conv_out_same _ 1); auto).
  cbn [size]. exact Hx.
Qed.

Lemma ARM_value_maps (hub : string -> R -> R) (channels : nat) (p : conv_bn_params)
    (n h w : nat) :
  0 < channels -> 0 < h -> 0 < w ->
  maps (AttentionRefinementModule.value (AttentionRefinementModule.init hub channels p))
       (Shape n channels h w) (Shape n channels h w).
Proof.
  intros Hc Hh Hw x Hx. unfold AttentionRefinementModule.value.
  destruct (ARM_gate_maps hub channels p n h w Hc Hh Hw x Hx) as (g & -> & Hg).
  cbn [rbind]. rewrite mul_same by congruence. eexists. split; [reflexivity |].
  cbn [size]. exact Hx.
Qed.

(** *** FeatureFusionModule *)

Lemma FFM_conv2_maps (cout : nat) (w0 w2 : entries) (n h w : nat) :
  0 < h -> 0 < w ->
  maps (Sequential [conv1x1 cout cout w0; ReLU; conv1x1 cout cout w2; Sigmoid])
       (Shape n cout h w) (Shape n cout h w).
Proof.
  intros Hh Hw.
  eapply maps_cons; [now apply conv1x1_maps |].
  eapply maps_cons; [apply pointwise_maps |].
  eapply maps_cons; [now apply conv1x1_maps |].
  eapply maps_cons; [apply pointwise_maps |].
  apply maps_nil.
Qed.

Lemma FFM_fused_size (hub : string -> R -> R) (cin cout : nat) (act_type : string)
    (p1 : conv_bn_params) (w0 w2 : entries) (x_low x_high : tensor) (n c1 c2 h w : nat) :
  size x_low = Shape n c1 h w -> size x_high = Shape n c2 h w -> c1 + c2 = cin ->
  0 < h -> 0 < w ->
  exists x, FeatureFusionModule.fused
              (FeatureFusionModule.init hub cin cout act_type p1 w0 w2) x_low x_high = inr x
            /\ size x = Shape n cout h w.
Proof.
  intros Hl Hh Hc Hh0 Hw0.
  unfold FeatureFusionModule.fused, FeatureFusionModule.init.
  cbn [FeatureFusionModule.conv1].
  rewrite (cat_eq x_low x_high n c1 c2 h w Hl Hh). cbn [rbind]. rewrite Hc.
  apply (ConvBNAct_maps hub cin cout 3 1 act_type p1 n h w h w);
    try (apply (conv_out_same _ 3); auto).
  reflexivity.
Qed.

Lemma FFM_gate_maps (hub : string -> R -> R) (cin cout : nat) (act_type : string)
    (p1 : conv_bn_params) (w0 w2 : entries) (n h w : nat) :
  0 < cout -> 0 < h -> 0 < w ->
  maps (FeatureFusionModule.gate (FeatureFusionModule.init hub cin cout act_type p1 w0 w2))
       (Shape n cout h w) (Shape n cout h w).
Proof.
  intros Hc Hh Hw x Hx.
  unfold FeatureFusionModule.gate, FeatureFusionModule.init.
  cbn [FeatureFusionModule.pool FeatureFusionModule.conv2].
  rewrite (pool_eq x n cout h w) by assumption. cbn [rbind].
  rewrite (expand_as_eq _ x n cout h w) by (assumption || reflexivity). cbn [rbind].
  apply (FFM_conv2_maps cout w0 w2 n h w Hh Hw). cbn [size]. exact Hx.
Qed.

Lemma FFM_value_size (hub : string -> R -> R) (cin cout : nat) (act_type : string)
    (p1 : conv_bn_params) (w0 w2 : entries) (x_low x_high : tensor) (n c1 c2 h w : nat) :
  size x_low = Shape n c1 h w -> size x_high = Shape n c2 h w -> c1 + c2 = cin ->
  0 < cout -> 0 < h -> 0 < w ->
  exists y, FeatureFusionModule.value
              (FeatureFusionModule.init hub cin cout act_type p1 w0 w2) x_low x_high = inr y
            /\ size y = Shape n cout h w.
Proof.
  intros Hl Hh Hc Hco Hh0 Hw0. unfold FeatureFusionModule.value.
  destruct (FFM_fused_size hub cin cout act_type p1 w0 w2 x_low x_high n c1 c2 h w)
    as (x & -> & Hx); auto.
  cbn [rbind].
  destruct (FFM_gate_maps hub cin cout act_type p1 w0 w2 n h w Hco Hh0 Hw0 x Hx)
    as (g & -> & Hg).
  cbn [rbind]. rewrite mul_same by congruence. cbn [rbind].
  rewrite add_same by reflexivity. eexists. split; [reflexivity |]. exact Hx.
Qed.

(** *** The backbone *)

Lemma expansion_pos (b : torchvision.block) : 0 < torchvision.expansion b.
Proof. destruct b; simpl; lia. Qed.

Lemma ResNet_value_size (b : torchvision.block) (W : torchvision.weights) (x : tensor)
    (n h w : nat) :
  size x = Shape n 3 (32 * h) (32 * w) -> 0 < h -> 0 < w ->
  exists x_32 x_16,
    ResNet.value (ResNet.wrap (torchvision.make b W)) x = inr (x_32, x_16)
    /\ size x_32 = Shape n (512 * torchvision.expansion b) h w
    /\ size x_16 = Shape n (256 * torchvision.expansion b) (2 * h) (2 * w).
Proof.
  intros Hx Hh Hw. unfold ResNet.value, ResNet.wrap, torchvision.make.
  cbn [ResNet.conv1 ResNet.bn1 ResNet.relu ResNet.maxpool ResNet.layer1 ResNet.layer2
       ResNet.layer3 ResNet.layer4 torchvision.conv1 torchvision.bn1 torchvision.relu
       torchvision.maxpool torchvision.layer1 torchvision.layer2 torchvision.layer3
       torchvision.layer4].
  set (e := torchvision.expansion b).
  replace (32 * h) with (2 * (16 * h)) in Hx by lia.
  replace (32 * w) with (2 * (16 * w)) in Hx by lia.
  destruct (Conv2d_maps 3 64 7 2 3 (torchvision.w_conv1 W) n _ _ (16 * h) (16 * w)
              ltac:(apply conv_out_half; (lia || auto))
              ltac:(apply conv_out_half; (lia || auto)) x Hx) as (y1 & -> & H1).
  cbn [rbind].
  destruct (BatchNorm2d_maps (torchvision.w_bn1 W) n 64 (16 * h) (16 * w) y1 H1)
    as (y2 & -> & H2).
  cbn [rbind].
  destruct (pointwise_maps relu _ y2 H2) as (y3 & E3 & H3).
  change (pointwise relu) with ReLU in E3. rewrite E3. cbn [rbind].
  replace (16 * h) with (2 * (8 * h)) in H3 by lia.
  replace (16 * w) with (2 * (8 * w)) in H3 by lia.
  destruct (MaxPool2d_maps 3 2 1 (torchvision.w_maxpool W) n 64 _ _ (8 * h) (8 * w)
              ltac:(apply conv_out_half; (lia || auto))
              ltac:(apply conv_out_half; (lia || auto)) y3 H3) as (y4 & -> & H4).
  cbn [rbind].
  destruct (opaque_maps 64 (64 * e) 3 1 1 (torchvision.w_layer W 1) n (8 * h) (8 * w) _ _
              ltac:(apply (conv_out_same _ 3); (lia || auto))
              ltac:(apply (conv_out_same _ 3); (lia || auto)) y4 H4) as (y5 & -> & H5).
  cbn [rbind].
  replace (8 * h) with (2 * (4 * h)) in H5 by lia.
  replace (8 * w) with (2 * (4 * w)) in H5 by lia.
  destruct (opaque_maps (64 * e) (128 * e) 3 2 1 (torchvision.w_layer W 2) n _ _
              (4 * h) (4 * w)
              ltac:(apply conv_out_half; (lia || auto))
              ltac:(apply conv_out_half; (lia || auto)) y5 H5) as (y6 & -> & H6).
  cbn [rbind].
  replace (4 * h) with (2 * (2 * h)) in H6 by lia.
  replace (4 * w) with (2 * (2 * w)) in H6 by lia.
  destruct (opaque_maps (128 * e) (256 * e) 3 2 1 (torchvision.w_layer W 3) n _ _
              (2 * h) (2 * w)
              ltac:(apply conv_out_half; (lia || auto))
              ltac:(apply conv_out_half; (lia || auto)) y6 H6) as (y7 & -> & H7).
  cbn [rbind].
  destruct (opaque_maps (256 * e) (512 * e) 3 2 1 (torchvision.w_layer W 4) n _ _ h w
              ltac:(apply conv_out_half; (lia || auto))
              ltac:(apply conv_out_half; (lia || auto)) y7 H7) as (y8 & -> & H8).
  cbn [rbind]. eauto.
Qed.

(** *** ContextPath *)

Lemma ContextPath_init_supported (P : parameters) (out_channels : nat)
    (backbone_type act_type : string) :
  In backbone_type supported ->
  ContextPath.init P out_channels backbone_type act_type =
  inr (built_context_path P out_channels (block_of backbone_type)
                          (zoo P backbone_type true)).
Proof.
  intros Hin. simpl in Hin.
  destruct Hin as [<- | [<- | [<- | [<- | [<- | []]]]]]; reflexivity.
Qed.

Lemma dict_get_hub_None (Z : string -> bool -> torchvision.weights) (resnet_type : string) :
  ~ In resnet_type supported -> dict_get (ResNet.resnet_hub Z) resnet_type = None.
Proof.
  intros Hn. unfold ResNet.resnet_hub. cbn [dict_get].
  repeat match goal with
         | |- context [String.eqb ?k resnet_type] =>
             destruct (String.eqb_spec k resnet_type) as [E | _];
             [exfalso; apply Hn; rewrite <- E; simpl; tauto |]
         end.
  reflexivity.
Qed.

Lemma dict_get_hub_Some (Z : string -> bool -> torchvision.weights) (resnet_type : string)
    (mk : bool -> torchvision.ResNet) :
  dict_get (ResNet.resnet_hub Z) resnet_type = Some mk -> In resnet_type supported.
Proof.
  intros H. destruct (in_dec String.string_dec resnet_type supported) as [Hin | Hn]; [exact Hin |].
  rewrite (dict_get_hub_None Z resnet_type Hn) in H. discriminate.
Qed.

Lemma ContextPath_init_inr (P : parameters) (out_channels : nat)
    (backbone_type act_type : string) (cp : ContextPath.t) :
  ContextPath.init P out_channels backbone_type act_type = inr cp ->
  In backbone_type supported.
Proof.
  unfold ContextPath.init. destruct (contains "resnet" backbone_type); [| discriminate].
  unfold ResNet.init.
  destruct (dict_get (ResNet.resnet_hub (zoo P)) backbone_type) as [mk |] eqn:E;
    [| discriminate].
  intros _. exact (dict_get_hub_Some _ _ _ E).
Qed.

(** Use [H : maps f P Q] on the call of [f] in the goal. *)
Ltac use_maps H :=
  lazymatch type of H with
  | maps ?f _ _ =>
      lazymatch goal with
      | |- context [rbind (f ?t) _] =>
          let y := fresh "y" in
          let S := fresh "S" in
          destruct (H t) as (y & -> & S);
          [ cbn [size]; first [assumption | reflexivity | congruence] | cbn [rbind] ]
      | |- context [f ?t] =>
          let y := fresh "y" in
          let S := fresh "S" in
          destruct (H t) as (y & -> & S);
          [ cbn [size]; first [assumption | reflexivity | congruence] | cbn [rbind] ]
      end
  end.

Lemma ContextPath_steps_size (P : parameters) (out_channels : nat) (b : torchvision.block)
    (W : torchvision.weights) (x : tensor) (n h w : nat) :
  size x = Shape n 3 (32 * h) (32 * w) -> 0 < out_channels -> 0 < h -> 0 < w ->
  exists y, ContextPath.steps (built_context_path P out_channels b W) x = inr y
            /\ size y = Shape n out_channels (4 * h) (4 * w).
Proof.
  intros Hx Ho Hh Hw. unfold ContextPath.steps, built_context_path.
  cbn [ContextPath.backbone ContextPath.pool ContextPath.arm_16 ContextPath.arm_32
       ContextPath.conv_16 ContextPath.conv_32].
  pose proof (expansion_pos b) as He. set (e := torchvision.expansion b) in *.
  destruct (ResNet_value_size b W x n h w Hx Hh Hw) as (x_32 & x_16 & -> & H32 & H16).
  fold e in H32, H16. cbn [rbind fst snd].
  rewrite (pool_eq x_32 n (512 * e) h w) by (assumption || lia). cbn [rbind].
  pose proof (ARM_value_maps (act_hub P) (512 * e) (p_arm_32 P) n h w
                ltac:(lia) Hh Hw) as M1.
  use_maps M1.
  rewrite iadd_value_eq by (rewrite S; apply broadcast_pooled). cbn [rbind].
  pose proof (conv1x1_maps (512 * e) out_channels (p_conv_32 P) n h w Hh Hw) as M2.
  use_maps M2.
  pose proof (interpolate_scale_maps n out_channels h w 2 Ho Hh Hw ltac:(lia)) as M3.
  destruct (M3 y0 S0) as (u32 & -> & Hu32). cbn [rbind].
  pose proof (ARM_value_maps (act_hub P) (256 * e) (p_arm_16 P) n (2 * h) (2 * w)
                ltac:(lia) ltac:(lia) ltac:(lia)) as M4.
  use_maps M4.
  pose proof (conv1x1_maps (256 * e) out_channels (p_conv_16 P) n (2 * h) (2 * w)
                ltac:(lia) ltac:(lia)) as M5.
  use_maps M5.
  rewrite iadd_value_eq by (rewrite S2, Hu32; apply broadcast_same). cbn [rbind].
  pose proof (interpolate_scale_maps n out_channels (2 * h) (2 * w) 2 Ho
                ltac:(lia) ltac:(lia) ltac:(lia)) as M6.
  match goal with
  | |- context [interpolate_scale ?t 2] => destruct (M6 t S2) as (r & -> & Hr)
  end.
  exists r. split; [reflexivity |]. rewrite Hr. f_equal; lia.
Qed.

(** *** BiSeNetv1 *)

Lemma BiSeNetv1_init_inr (P : parameters) (num_class n_channel : nat)
    (backbone_type act_type : string) (m : BiSeNetv1.t) :
  BiSeNetv1.init P num_class n_channel backbone_type act_type = inr m ->
  In backbone_type supported /\
  m = built P num_class n_channel act_type
        (built_context_path P 256 (block_of backbone_type) (zoo P backbone_type true)).
Proof.
  unfold BiSeNetv1.init.
  destruct (ContextPath.init P 256 backbone_type act_type) as [e | cp] eqn:E;
    [discriminate |].
  pose proof (ContextPath_init_inr _ _ _ _ _ E) as Hin.
  rewrite (ContextPath_init_supported P 256 backbone_type act_type Hin) in E.
  injection E as <-. cbn [rbind]. intros [= <-]. split; [exact Hin | reflexivity].
Qed.


Lemma BiSeNetv1_value_size (P : parameters) (num_class : nat) (act_type : string)
    (b : torchvision.block) (W : torchvision.weights) (x : tensor) (n h w : nat) :
  size x = Shape n 3 (32 * h) (32 * w) -> 0 < num_class -> 0 < h -> 0 < w ->
  exists x_s x_c out,
    BiSeNetv1.spatial_path (built P num_class 3 act_type (built_context_path P 256 b W)) x
      = inr x_s
    /\ size x_s = Shape n 128 (4 * h) (4 * w)
    /\ ContextPath.steps (built_context_path P 256 b W) x = inr x_c
    /\ size x_c = Shape n 256 (4 * h) (4 * w)
    /\ BiSeNetv1.value (built P num_class 3 act_type (built_context_path P 256 b W)) x
       = inr out
    /\ size out = Shape n num_class (32 * h) (32 * w).
Proof.
  intros Hx Hnc Hh Hw. unfold BiSeNetv1.value, built.
  cbn [BiSeNetv1.spatial_path BiSeNetv1.context_path BiSeNetv1.ffm BiSeNetv1.seg_head].
  assert (Hx8 : size x = Shape n 3 (8 * (4 * h)) (8 * (4 * w))).
  { rewrite Hx. f_equal; lia. }
  destruct (SpatialPath_maps (act_hub P) 3 128 act_type (p_spatial_0 P) (p_spatial_1 P)
              (p_spatial_2 P) n (4 * h) (4 * w) ltac:(lia) ltac:(lia) x Hx8)
    as (x_s & Es & Hs).
  destruct (ContextPath_steps_size P 256 b W x n h w Hx ltac:(lia) Hh Hw)
    as (x_c & Ec & Hc).
  exists x_s, x_c. rewrite Es, Ec. cbn [rbind].
  destruct (FFM_value_size (act_hub P) 384 256 act_type (p_ffm_conv1 P) (p_ffm_conv2_0 P)
              (p_ffm_conv2_2 P) x_s x_c n 128 256 (4 * h) (4 * w) Hs Hc eq_refl
              ltac:(lia) ltac:(lia) ltac:(lia)) as (y & -> & Hy).
  cbn [rbind].
  destruct (SegHead_maps (act_hub P) 256 num_class act_type 128 (p_seg_0 P) (p_seg_1 P)
              n (4 * h) (4 * w) ltac:(lia) ltac:(lia) y Hy) as (z & -> & Hz).
  cbn [rbind]. rewrite Hx. cbn [height width].
  rewrite (interpolate_size_eq z n num_class (4 * h) (4 * w) (32 * h) (32 * w))
    by (assumption || lia).
  eexists. repeat split; try reflexivity; assumption.
Qed.

(** *** Substrings *)

Lemma prefix_append (a b : string) : String.prefix a (a +:+ b) = true.
Proof.
  induction a as [| c a IH]; simpl.
  - destruct b; reflexivity.
  - destruct (Ascii.ascii_dec c c) as [_ | Hn]; [exact IH | contradiction].
Qed.

Lemma contains_unfold (sub s : string) :
  contains sub s =
  if String.prefix sub s then true
  else match s with
       | EmptyString => false
       | String _ s' => contains sub s'
       end.
Proof. destruct s; reflexivity. Qed.

Lemma contains_prefix (a b : string) : contains a (a +:+ b) = true.
Proof. rewrite contains_unfold, prefix_append. reflexivity. Qed.

Lemma contains_append (sub a b : string) :
  contains sub b = true -> contains sub (a +:+ b) = true.
Proof.
  intros H. induction a as [| c a IH]; [exact H |].
  change (String c a +:+ b) with (String c (a +:+ b)).
  rewrite contains_unfold. cbv beta iota.
  rewrite IH. destruct (String.prefix sub (String c (a +:+ b))); reflexivity.
Qed.

(** ** The attention gates *)



Lemma sum_n_ext (n : nat) (f g : nat -> R) :
  (forall i, i < n -> f i = g i) -> sum_n n f = sum_n n g.
Proof.
  induction n as [| n IH]; intros H; simpl; [reflexivity |].
  rewrite IH by (intros i Hi; apply H; lia). rewrite H by lia. reflexivity.
Qed.

Lemma conv_out_1x1 (m m' : nat) : conv_out m 1 1 0 = inr m' -> m' = m.
Proof.
  unfold conv_out. destruct (Nat.ltb_spec (m + 2 * 0) 1) as [Hlt | Hge]; [discriminate |].
  intros H. assert (E : (m + 2 * 0 - 1) / 1 + 1 = m') by congruence.
  rewrite Nat.div_1_r in E. lia.
Qed.

Lemma padded_1x1 (x : tensor) (n c i j : nat) :
  i < height (size x) -> j < width (size x) ->
  padded x 0 n c (i * 1 + 0) (j * 1 + 0) = data x n c i j.
Proof.
  intros Hi Hj. unfold padded.
  replace (i * 1 + 0) with i by lia. replace (j * 1 + 0) with j by lia.
  rewrite !Nat.sub_0_r. cbn [Nat.leb andb Nat.add].
  destruct (Nat.ltb_spec i (height (size x))); [| lia].
  destruct (Nat.ltb_spec j (width (size x))); [| lia].
  reflexivity.
Qed.

Lemma conv1x1_entries (cin cout : nat) (wt : entries) (x y : tensor) :
  conv1x1 cin cout wt x = inr y ->
  height (size y) = height (size x) /\ width (size y) = width (size x) /\
  forall n o i j, i < height (size x) -> j < width (size x) ->
    data y n o i j = sum_n cin (fun c => (wt o c 0%nat 0%nat * data x n c i j)%R).
Proof.
  unfold conv1x1, Conv2d. destruct (chans (size x) =? cin); [| discriminate].
  destruct (conv_out (height (size x)) 1 1 0) as [e | h'] eqn:Eh; [discriminate |].
  destruct (conv_out (width (size x)) 1 1 0) as [e | w'] eqn:Ew; [discriminate |].
  cbn [rbind]. intros [= <-]. cbn [size data height width].
  apply conv_out_1x1 in Eh, Ew. subst h' w'.
  split; [reflexivity |]. split; [reflexivity |].
  intros n o i j Hi Hj. unfold conv_data. apply sum_n_ext. intros c _.
  cbn [sum_n]. rewrite padded_1x1 by assumption. lra.
Qed.

Lemma conv1x1_keeps (cin cout : nat) (wt : entries) : keeps_constant (conv1x1 cin cout wt).
Proof.
  intros x y Hy Hx. destruct (conv1x1_entries _ _ _ _ _ Hy) as (Hh & Hw & Hd).
  intros n o i j i' j' Hi Hj Hi' Hj'. rewrite Hh in Hi, Hi'. rewrite Hw in Hj, Hj'.
  rewrite !Hd by assumption. apply sum_n_ext. intros c _.
  now rewrite (Hx n c i j i' j').
Qed.

Lemma BatchNorm2d_keeps (num_features : nat) (bn : bn_coeffs) :
  keeps_constant (BatchNorm2d num_features bn).
Proof.
  intros x y. unfold BatchNorm2d. destruct (chans (size x) =? num_features); [| discriminate].
  intros [= <-] Hx n c h w h' w' Hh Hw Hh' Hw'. cbn [size data] in *.
  now rewrite (Hx n c h w h' w').
Qed.

Lemma pointwise_keeps (f : R -> R) : keeps_constant (pointwise f).
Proof.
  intros x y [= <-] Hx n c h w h' w' Hh Hw Hh' Hw'. cbn [size data] in *.
  now rewrite (Hx n c h w h' w').
Qed.

Lemma Activation_keeps (hub : string -> R -> R) (act_type : string) :
  keeps_constant (Activation hub act_type).
Proof. destruct (Activation_pointwise hub act_type) as [f ->]. apply pointwise_keeps. Qed.

Lemma keeps_nil : keeps_constant (Sequential []).
Proof. intros x y [= <-] Hx. exact Hx. Qed.

Lemma keeps_cons (f : layer) (fs : list layer) :
  keeps_constant f -> keeps_constant (Sequential fs) -> keeps_constant (Sequential (f :: fs)).
Proof.
  intros Hf Hfs x y. rewrite Sequential_cons.
  destruct (f x) as [e | z] eqn:E; [discriminate |]. cbn [rbind].
  intros Hy Hx. exact (Hfs z y Hy (Hf x z E Hx)).
Qed.

Lemma ConvBNAct_1x1_keeps (hub : string -> R -> R) (cin cout : nat) (act_type : string)
    (p : conv_bn_params) :
  keeps_constant (ConvBNAct hub cin cout 1 1 act_type p).
Proof.
  unfold ConvBNAct. change ((1 - 1) / 2) with 0.
  apply keeps_cons; [apply (conv1x1_keeps cin cout) |].
  apply keeps_cons; [apply BatchNorm2d_keeps |].
  apply keeps_cons; [apply Activation_keeps |].
  apply keeps_nil.
Qed.

Lemma expanded_pool_constant (x e : tensor) :
  rbind (AdaptiveAvgPool2d_1 x) (fun p => expand_as p x) = inr e ->
  size e = size x /\ spatially_constant e
  /\ forall n c h w, in_bounds (size x) n c h w -> data e n c h w = spatial_mean x n c.
Proof.
  unfold AdaptiveAvgPool2d_1.
  destruct ((chans (size x) =? 0) || (height (size x) =? 0) || (width (size x) =? 0));
    [discriminate |].
  cbn [rbind]. unfold expand_as. cbn [size].
  destruct (expandable _ _ && expandable _ _ && expandable _ _ && expandable _ _);
    [| discriminate].
  intros [= <-]. cbn [size data]. split; [reflexivity |]. split.
  - intros n c h w h' w' _ _ _ _. reflexivity.
  - intros n c h w (Hn & Hc & _ & _). unfold bdata. cbn [size data batch chans].
    now rewrite !bix_lt by assumption.
Qed.

Lemma pooled_gate_constant (f : layer) (x g : tensor) :
  keeps_constant f ->
  rbind (AdaptiveAvgPool2d_1 x) (fun p => rbind (expand_as p x) f) = inr g ->
  spatially_constant g.
Proof.
  intros Hf Hg. rewrite <- rbind_assoc in Hg.
  destruct (rbind (AdaptiveAvgPool2d_1 x) (fun p => expand_as p x)) as [e | z] eqn:E;
    [discriminate |].
  cbn [rbind] in Hg. destruct (expanded_pool_constant x z E) as (_ & Hz & _).
  exact (Hf z g Hg Hz).
Qed.

Lemma FFM_conv2_keeps (cout : nat) (w0 w2 : entries) :
  keeps_constant (Sequential [conv1x1 cout cout w0; ReLU; conv1x1 cout cout w2; Sigmoid]).
Proof.
  apply keeps_cons; [apply conv1x1_keeps |].
  apply keeps_cons; [apply pointwise_keeps |].
  apply keeps_cons; [apply conv1x1_keeps |].
  apply keeps_cons; [apply pointwise_keeps |].
  apply keeps_nil.
Qed.

(** What [AttentionRefinementModule.forward] returns, entry by entry. *)
Lemma ARM_run_entries (self : AttentionRefinementModule.t) (s : store) (x : loc)
    (t g : tensor) :
  s !! x = Some t ->
  AttentionRefinementModule.gate self t = inr g ->
  size g = size t ->
  exists out,
    run_tensor (AttentionRefinementModule.forward self x) s = inr out
    /\ size out = size t
    /\ forall n c h w, in_bounds (size t) n c h w ->
         data out n c h w = (data t n c h w * data g n c h w)%R.
Proof.
  intros Hx Hg Hsz.
  rewrite (refines_run _ _ _ (ARM_forward_refines self s x t Hx)).
  unfold AttentionRefinementModule.value. rewrite Hg. cbn [rbind].
  rewrite (mul_same t g Hsz). eexists. split; [reflexivity |]. cbn [size data].
  split; [reflexivity |]. intros n c h w Hb.
  rewrite (bdata_in_bounds t) by exact Hb.
  rewrite (bdata_in_bounds g) by (rewrite Hsz; exact Hb). reflexivity.
Qed.

(** What [FeatureFusionModule.forward] returns, entry by entry. *)
Lemma FFM_run_entries (self : FeatureFusionModule.t) (s : store) (x_low x_high : loc)
    (t_low t_high x g : tensor) :
  s !! x_low = Some t_low -> s !! x_high = Some t_high ->
  FeatureFusionModule.fused self t_low t_high = inr x ->
  FeatureFusionModule.gate self x = inr g ->
  size g = size x ->
  exists out,
    run_tensor (FeatureFusionModule.forward self x_low x_high) s = inr out
    /\ size out = size x
    /\ forall n c h w, in_bounds (size x) n c h w ->
         data out n c h w = (data x n c h w + data x n c h w * data g n c h w)%R.
Proof.
  intros Hl Hh Hx Hg Hsz.
  rewrite (refines_run _ _ _ (FFM_forward_refines self s x_low x_high _ _ Hl Hh)).
  unfold FeatureFusionModule.value. rewrite Hx. cbn [rbind]. rewrite Hg. cbn [rbind].
  rewrite (mul_same x g Hsz). cbn [rbind]. rewrite add_same by reflexivity.
  eexists. split; [reflexivity |]. cbn [size data]. split; [reflexivity |].
  intros n c h w Hb.
  rewrite (bdata_in_bounds (Tensor _ _)) by exact Hb. cbn [data].
  rewrite (bdata_in_bounds x) by exact Hb.
  rewrite (bdata_in_bounds g) by (rewrite Hsz; exact Hb). reflexivity.
Qed.

(** ** In-place addition and interpolation *)

(** [a += b] for [b] of size (n, c, 1, 1): every pixel of a channel of [a]
    receives the one entry of that channel of [b]. *)
Lemma iadd_value_pooled (a b : tensor) (n c h w : nat) :
  size a = Shape n c h w -> size b = Shape n c 1 1 ->
  exists r, iadd_value a b = inr r
            /\ size r = size a
            /\ forall i j k l, in_bounds (size a) i j k l ->
                 data r i j k l = (data a i j k l + data b i j 0%nat 0%nat)%R.
Proof.
  intros Ha Hb. rewrite iadd_value_eq by (rewrite Ha, Hb; apply broadcast_pooled).
  eexists. split; [reflexivity |]. cbn [size data]. split; [reflexivity |].
  intros i j k l Hin. rewrite (bdata_in_bounds a) by exact Hin.
  destruct Hin as (Hi & Hj & _ & _). rewrite Ha in Hi, Hj. cbn [batch chans] in Hi, Hj.
  unfold bdata. rewrite Hb. cbn [batch chans height width].
  rewrite (bix_lt n i Hi), (bix_lt c j Hj). reflexivity.
Qed.

Lemma src_first (n_in n_out : nat) :
  src_lo n_in n_out 0 = 0 /\ src_frac n_in n_out 0 = 0%R.
Proof.
  unfold src_lo, src_frac. destruct (n_out <=? 1); [auto |].
  cbn [Nat.mul]. rewrite Nat.Div0.div_0_l, Nat.Div0.mod_0_l. split; [reflexivity |].
  cbn [INR]. unfold Rdiv. apply Rmult_0_l.
Qed.

Lemma src_last (n_in n_out : nat) :
  1 < n_out ->
  src_lo n_in n_out (n_out - 1) = n_in - 1
  /\ src_hi n_in n_out (n_out - 1) = n_in - 1
  /\ src_frac n_in n_out (n_out - 1) = 0%R.
Proof.
  intros Hout. unfold src_hi, src_lo, src_frac.
  destruct (Nat.leb_spec n_out 1) as [Hle | _]; [lia |].
  rewrite (Nat.mul_comm (n_out - 1) (n_in - 1)).
  rewrite Nat.div_mul by lia. rewrite Nat.Div0.mod_mul.
  split; [reflexivity |]. split; [lia |].
  cbn [INR]. unfold Rdiv. apply Rmult_0_l.
Qed.

(** Corner alignment: the first and the last pixel of the resized image are
    the first and the last pixel of the source. *)
Lemma bilinear_corners (x : tensor) (h w n c : nat) :
  1 < h -> 1 < w ->
  bilinear x h w n c 0 0 = data x n c 0 0
  /\ bilinear x h w n c (h - 1) (w - 1)
     = data x n c (height (size x) - 1) (width (size x) - 1).
Proof.
  intros Hh Hw. unfold bilinear. cbv zeta. split.
  - unfold src_hi.
    destruct (src_first (height (size x)) h) as [-> ->].
    destruct (src_first (width (size x)) w) as [-> ->]. ring.
  - destruct (src_last (height (size x)) h Hh) as (-> & -> & ->).
    destruct (src_last (width (size x)) w Hw) as (-> & -> & ->). ring.
Qed.

(** ** The claims *)

(** *** The model on concrete inputs *)

Example init_resnet18 :
  BiSeNetv1.init unit_parameters 19 3 "resnet18" "relu" =
  inr (built unit_parameters 19 3 "relu"
         (built_context_path unit_parameters 256 torchvision.BasicBlock unit_weights)).
Proof. reflexivity. Qed.

Example substring_tests :
  contains "resnet" "resnet101" = true /\ contains "18" "resnet101" = false
  /\ contains "34" "resnet34" = true /\ contains "resnet" "ResNet18" = false.
Proof. repeat split; reflexivity. Qed.

Example conv_sizes :
  conv_out 512 3 2 1 = inr 256 /\ conv_out 512 7 2 3 = inr 256
  /\ conv_out 33 3 2 1 = inr 17 /\ conv_out 64 1 1 0 = inr 64
  /\ conv_out 0 3 2 1 = inl RuntimeError.
Proof. repeat split; reflexivity. Qed.

(** An input whose channel count is not the model's, and an empty image,
    are refused by the first convolution. *)
Example forward_refuses :
  run_tensor
    (BiSeNetv1.forward
       (built unit_parameters 19 3 "relu"
          (built_context_path unit_parameters 256 torchvision.BasicBlock unit_weights)) 0)
    [full (Shape 1 4 64 64) 0%R] = inl RuntimeError
  /\ run_tensor
       (BiSeNetv1.forward
          (built unit_parameters 19 3 "relu"
             (built_context_path unit_parameters 256 torchvision.BasicBlock unit_weights)) 0)
       [full (Shape 1 3 0 0) 0%R] = inl RuntimeError.
Proof. split; reflexivity. Qed.

(** A height that is not a multiple of 32: at 1/8 resolution the two
    branches disagree on the size and the concatenation is refused. *)
Example forward_refuses_24 :
  result_size (BiSeNetv1.spatial_path
               (built unit_parameters 19 3 "relu"
                  (built_context_path unit_parameters 256 torchvision.BasicBlock
                                      unit_weights))
               (full (Shape 1 3 24 32) 0%R)) = inr (Shape 1 128 3 4)
  /\ result_size (ContextPath.steps
                  (built_context_path unit_parameters 256 torchvision.BasicBlock
                                      unit_weights)
                  (full (Shape 1 3 24 32) 0%R)) = inr (Shape 1 256 4 4)
  /\ run_tensor
       (BiSeNetv1.forward
          (built unit_parameters 19 3 "relu"
             (built_context_path unit_parameters 256 torchvision.BasicBlock unit_weights)) 0)
       [full (Shape 1 3 24 32) 0%R] = inl RuntimeError.
Proof. repeat split; reflexivity. Qed.



(** C2. A backbone name that contains "resnet" but is none of the five
    names of the table makes construction of the model fail with a
    ValueError whose message contains the name; no model is returned. *)
Theorem init_unsupported_resnet (P : parameters) (num_class n_channel : nat)
    (backbone_type act_type : string) :
  contains "resnet" backbone_type = true ->
  ~ In backbone_type supported ->
  BiSeNetv1.init P num_class n_channel backbone_type act_type =
    inl (ValueError ("Unsupported ResNet type: " +:+ backbone_type +:+ "." +:+ newline))
  /\ contains backbone_type
       ("Unsupported ResNet type: " +:+ backbone_type +:+ "." +:+ newline) = true.
Proof.
  intros Hres Hn. split.
  - unfold BiSeNetv1.init, ContextPath.init. rewrite Hres.
    unfold ResNet.init. rewrite (dict_get_hub_None (zoo P) backbone_type Hn).
    reflexivity.
  - apply contains_append. apply contains_prefix.
Qed.

Lemma init_unsupported_resnet_witness :
  BiSeNetv1.init unit_parameters 19 3 "resnet9" "relu" =
    inl (ValueError ("Unsupported ResNet type: " +:+ "resnet9" +:+ "." +:+ newline))
  /\ contains "resnet9" ("Unsupported ResNet type: " +:+ "resnet9" +:+ "." +:+ newline) = true.
Proof.
  apply (init_unsupported_resnet unit_parameters 19 3 "resnet9" "relu").
  - reflexivity.
  - simpl. intros [H | [H | [H | [H | [H | []]]]]]; discriminate H.
Defined.

(** C3. A backbone name that does not contain "resnet" makes construction
    of the model fail with NotImplementedError; no model is returned. *)
Theorem init_unsupported_family (P : parameters) (num_class n_channel : nat)
    (backbone_type act_type : string) :
  contains "resnet" backbone_type = false ->
  BiSeNetv1.init P num_class n_channel backbone_type act_type = inl NotImplementedError.
Proof.
  intros Hres. unfold BiSeNetv1.init, ContextPath.init. rewrite Hres. reflexivity.
Qed.

Lemma init_unsupported_family_witness :
  BiSeNetv1.init unit_parameters 19 3 "vgg16" "relu" = inl NotImplementedError.
Proof.
  apply (init_unsupported_family unit_parameters 19 3 "vgg16" "relu"). reflexivity.
Defined.



(** The table of C4 on the five names. *)
Example channels_table :
  map ContextPath.channels supported =
  [[256; 512]; [256; 512]; [1024; 2048]; [1024; 2048]; [1024; 2048]].
Proof. reflexivity. Qed.

(** C5. [FeatureFusionModule.forward] returns [x + x * gate], where [x] is
    the result of [conv1] on the channel concatenation of the two inputs;
    where the gate is zero everywhere, the output equals [x]. *)
Theorem ffm_residual (self : FeatureFusionModule.t) (s : store) (x_low x_high : loc)
    (t_low t_high x g : tensor) :
  s !! x_low = Some t_low -> s !! x_high = Some t_high ->
  FeatureFusionModule.fused self t_low t_high = inr x ->
  FeatureFusionModule.gate self x = inr g ->
  size g = size x ->
  exists out,
    run_tensor (FeatureFusionModule.forward self x_low x_high) s = inr out
    /\ size out = size x
    /\ (forall n c h w, in_bounds (size x) n c h w ->
          data out n c h w = (data x n c h w + data x n c h w * data g n c h w)%R)
    /\ (all_zero g -> teq out x).
Proof.
  intros Hl Hh Hx Hg Hsz.
  destruct (FFM_run_entries self s x_low x_high t_low t_high x g Hl Hh Hx Hg Hsz)
    as (out & Hrun & Hout & Hdata).
  exists out. split; [exact Hrun |]. split; [exact Hout |]. split; [exact Hdata |].
  intros Hzero. split; [exact Hout |].
  intros n c h w Hb. rewrite Hout in Hb. rewrite (Hdata n c h w Hb).
  rewrite (Hzero n c h w) by (rewrite Hsz; exact Hb). lra.
Qed.

Lemma ffm_residual_witness :
  exists out,
    run_tensor (FeatureFusionModule.forward zero_gate_ffm 0 1)
               [full (Shape 1 1 2 2) 1%R; full (Shape 1 1 2 2) 2%R] = inr out
    /\ teq out (Tensor (Shape 1 2 2 2) (fun n c h w => if c <? 1 then 1%R else 2%R)).
Proof.
  destruct (ffm_residual zero_gate_ffm
              [full (Shape 1 1 2 2) 1%R; full (Shape 1 1 2 2) 2%R] 0 1
              (full (Shape 1 1 2 2) 1%R) (full (Shape 1 1 2 2) 2%R)
              (Tensor (Shape 1 2 2 2) (fun n c h w => if c <? 1 then 1%R else 2%R))
              (full (Shape 1 2 2 2) 0%R))
    as (out & Hrun & _ & _ & Hzero).
  - reflexivity.
  - reflexivity.
  - reflexivity.
  - reflexivity.
  - reflexivity.
  - exists out. split; [exact Hrun |]. apply Hzero. intros n c h w _. reflexivity.
Defined.

(** C6. [ContextPath.forward] computes exactly the eight steps in their
    order: the average of the raw 1/32 output is added, in place and by
    broadcasting, to the refined 1/32 output before its projection and
    upsampling; that result is added in place to the projected refined 1/16
    output, and the sum is upsampled by two, bilinearly with aligned
    corners. Cells that existed before the call keep their values, the
    result is a cell of its own. *)
Theorem context_path_order (self : ContextPath.t) (s : store) (x : loc) (t : tensor) :
  s !! x = Some t ->
  run_tensor (ContextPath.forward self x) s = ContextPath.steps self t
  /\ (forall y, ContextPath.steps self t = inr y ->
        exists l s', ContextPath.forward self x s = inr (l, s')
                     /\ s `prefix_of` s' /\ s' !! l = Some y /\ length s <= l)
  /\ (forall gated avg n c h w,
        size gated = Shape n c h w -> size avg = Shape n c 1 1 ->
        exists r, iadd_value gated avg = inr r
                  /\ size r = size gated
                  /\ forall i j k l, in_bounds (size gated) i j k l ->
                       data r i j k l
                       = (data gated i j k l + data avg i j 0%nat 0%nat)%R)
  /\ (forall u y n c, interpolate_scale u 2 = inr y ->
        size y = Shape (batch (size u)) (chans (size u))
                       (2 * height (size u)) (2 * width (size u))
        /\ data y n c 0 0 = data u n c 0 0
        /\ data y n c (2 * height (size u) - 1) (2 * width (size u) - 1)
           = data u n c (height (size u) - 1) (width (size u) - 1)).
Proof.
  intros Hx. pose proof (ContextPath_forward_refines self s x t Hx) as Href.
  split; [exact (refines_run _ _ _ Href) |]. split; [| split].
  - intros y Hy. rewrite Hy in Href. exact (refines_frame _ _ _ Href).
  - intros gated avg n c h w Hg Ha. exact (iadd_value_pooled gated avg n c h w Hg Ha).
  - intros u y n c. unfold interpolate_scale, interpolate_size. cbn [fst snd].
    destruct (chans (size u) =? 0); [discriminate |].
    destruct (Nat.eqb_spec (height (size u)) 0) as [| Hh]; [discriminate |].
    destruct (Nat.eqb_spec (width (size u)) 0) as [| Hw]; [discriminate |].
    cbn [orb].
    destruct (2 * height (size u) =? 0); [discriminate |].
    destruct (2 * width (size u) =? 0); [discriminate |].
    cbn [orb]. intros [= <-]. cbn [size data]. split; [reflexivity |].
    apply bilinear_corners; lia.
Qed.

Lemma context_path_order_witness :
  run_tensor
    (ContextPath.forward
       (built_context_path unit_parameters 256 torchvision.BasicBlock unit_weights) 0)
    [full (Shape 1 3 32 32) 0%R]
  = ContextPath.steps
      (built_context_path unit_parameters 256 torchvision.BasicBlock unit_weights)
      (full (Shape 1 3 32 32) 0%R)
  /\ exists y,
       ContextPath.steps
         (built_context_path unit_parameters 256 torchvision.BasicBlock unit_weights)
         (full (Shape 1 3 32 32) 0%R) = inr y
       /\ size y = Shape 1 256 4 4.
Proof.
  split.
  - destruct (context_path_order
                (built_context_path unit_parameters 256 torchvision.BasicBlock unit_weights)
                [full (Shape 1 3 32 32) 0%R] 0 (full (Shape 1 3 32 32) 0%R))
      as [Hrun _].
    + reflexivity.
    + exact Hrun.
  - apply (ContextPath_steps_size unit_parameters 256 torchvision.BasicBlock unit_weights
             (full (Shape 1 3 32 32) 0%R) 1 1 1); (reflexivity || lia).
Defined.



(** C8. Evaluating the context path before the spatial path gives the same
    output as [BiSeNetv1.forward] on every input. The output is a function
    of the value of the input alone, and neither branch changes the cell of
    the input. *)
Theorem branches_commute (self : BiSeNetv1.t) (s : store) (x : loc) (t : tensor) :
  s !! x = Some t ->
  outcome (run_tensor (BiSeNetv1.forward self x) s)
    = outcome (run_tensor (BiSeNetv1.forward_context_first self x) s)
  /\ (forall s2 x2, s2 !! x2 = Some t ->
        run_tensor (BiSeNetv1.forward self x2) s2 = run_tensor (BiSeNetv1.forward self x) s)
  /\ (forall y, BiSeNetv1.spatial_path self t = inr y ->
        call (BiSeNetv1.spatial_path self) x s = inr (length s, s ++ [y])
        /\ (s ++ [y]) !! x = Some t)
  /\ (forall y, ContextPath.steps (BiSeNetv1.context_path self) t = inr y ->
        exists l s', ContextPath.forward (BiSeNetv1.context_path self) x s = inr (l, s')
                     /\ s' !! x = Some t /\ s' !! l = Some y /\ l <> x).
Proof.
  intros Hx.
  rewrite (refines_run _ _ _ (BiSeNetv1_forward_refines self s x t Hx)).
  rewrite (refines_run _ _ _ (BiSeNetv1_context_first_refines self s x t Hx)).
  split; [| split; [| split]].
  - unfold BiSeNetv1.value, value_context_first.
    destruct (BiSeNetv1.spatial_path self t) as [e1 | x_s];
      destruct (ContextPath.steps (BiSeNetv1.context_path self) t) as [e2 | x_c];
      reflexivity.
  - intros s2 x2 Hx2.
    now rewrite (refines_run _ _ _ (BiSeNetv1_forward_refines self s2 x2 t Hx2)).
  - intros y Hy. split; [| now apply lookup_below].
    unfold call, bind, load, lift, alloc. rewrite Hx, Hy. reflexivity.
  - intros y Hy.
    pose proof (ContextPath_forward_refines (BiSeNetv1.context_path self) s x t Hx) as Href.
    rewrite Hy in Href.
    destruct (refines_frame _ _ _ Href) as (l & s' & Hrun & Hpre & Hl & Hlen).
    exists l, s'. split; [exact Hrun |]. split; [| split; [exact Hl |]].
    + destruct Hpre as [ext ->]. now apply lookup_below.
    + apply lookup_lt_Some in Hx. lia.
Qed.

Lemma branches_commute_witness :
  outcome (run_tensor
             (BiSeNetv1.forward
                (built unit_parameters 19 3 "relu"
                   (built_context_path unit_parameters 256 torchvision.BasicBlock
                                       unit_weights)) 0)
             [full (Shape 1 3 32 32) 0%R])
  = outcome (run_tensor
               (BiSeNetv1.forward_context_first
                  (built unit_parameters 19 3 "relu"
                     (built_context_path unit_parameters 256 torchvision.BasicBlock
                                         unit_weights)) 0)
               [full (Shape 1 3 32 32) 0%R]).
Proof.
  destruct (branches_commute
              (built unit_parameters 19 3 "relu"
                 (built_context_path unit_parameters 256 torchvision.BasicBlock
                                     unit_weights))
              [full (Shape 1 3 32 32) 0%R] 0 (full (Shape 1 3 32 32) 0%R))
    as [Hsame _].
  - reflexivity.
  - exact Hsame.
Defined.

(** C9. [BiSeNetv1.forward] hands the output of the spatial path to the
    fusion module as [x_low] and the output of the context path as
    [x_high]; the concatenation has 384 channels, of which the first 128
    are those of the spatial path and the last 256 those of the context
    path, in their order. *)
Theorem concat_order (P : parameters) (num_class : nat) (backbone_type act_type : string)
    (m : BiSeNetv1.t) (s : store) (x : loc) (t : tensor) (B H W : nat) :
  BiSeNetv1.init P num_class 3 backbone_type act_type = inr m ->
  s !! x = Some t ->
  size t = Shape B 3 H W ->
  0 < num_class -> 0 < H -> 0 < W -> Nat.divide 32 H -> Nat.divide 32 W ->
  exists x_s x_c xcat,
    BiSeNetv1.spatial_path m t = inr x_s /\ chans (size x_s) = 128
    /\ ContextPath.steps (BiSeNetv1.context_path m) t = inr x_c /\ chans (size x_c) = 256
    /\ cat x_s x_c = inr xcat /\ chans (size xcat) = 384
    /\ (forall n c h w, c < 128 -> data xcat n c h w = data x_s n c h w)
    /\ (forall n c h w, 128 <= c -> data xcat n c h w = data x_c n (c - 128) h w)
    /\ FeatureFusionModule.fused (BiSeNetv1.ffm m) x_s x_c
       = FeatureFusionModule.conv1 (BiSeNetv1.ffm m) xcat
    /\ run_tensor (BiSeNetv1.forward m x) s
       = (let* y := FeatureFusionModule.value (BiSeNetv1.ffm m) x_s x_c in
          let* y := BiSeNetv1.seg_head m y in
          interpolate_size y (H, W)).
Proof.
  intros Hinit Hx Ht Hnc HH HW [h EH] [w EW].
  destruct (BiSeNetv1_init_inr _ _ _ _ _ _ Hinit) as [_ ->].
  rewrite (refines_run _ _ _ (BiSeNetv1_forward_refines _ s x t Hx)).
  assert (Ht' : size t = Shape B 3 (32 * h) (32 * w)).
  { rewrite Ht. f_equal; lia. }
  destruct (BiSeNetv1_value_size P num_class act_type (block_of backbone_type)
              (zoo P backbone_type true) t B h w Ht' Hnc ltac:(lia) ltac:(lia))
    as (x_s & x_c & out & Es & Hs & Ec & Hc & _ & _).
  exists x_s, x_c. eexists.
  split; [exact Es |]. split; [now rewrite Hs |].
  split; [exact Ec |]. split; [now rewrite Hc |].
  split; [apply (cat_eq x_s x_c B 128 256 (4 * h) (4 * w) Hs Hc) |].
  split; [reflexivity |]. cbn [data].
  split; [| split; [| split]].
  - intros n c i j Hlt. destruct (Nat.ltb_spec c 128); [reflexivity | lia].
  - intros n c i j Hge. destruct (Nat.ltb_spec c 128); [lia | reflexivity].
  - unfold FeatureFusionModule.fused.
    now rewrite (cat_eq x_s x_c B 128 256 (4 * h) (4 * w) Hs Hc).
  - unfold BiSeNetv1.value. rewrite Es. cbn [rbind BiSeNetv1.context_path built].
    rewrite Ec. cbn [rbind]. rewrite Ht. reflexivity.
Qed.

Lemma concat_order_witness :
  exists x_s x_c xcat,
    cat x_s x_c = inr xcat
    /\ chans (size x_s) = 128 /\ chans (size x_c) = 256 /\ chans (size xcat) = 384
    /\ data xcat 0 127 0 0 = data x_s 0 127 0 0
    /\ data xcat 0 128 0 0 = data x_c 0 0 0 0
    /\ run_tensor
         (BiSeNetv1.forward
            (built unit_parameters 19 3 "relu"
               (built_context_path unit_parameters 256 torchvision.BasicBlock
                                   unit_weights)) 0)
         [full (Shape 1 3 64 32) 0%R]
       = (let* y := FeatureFusionModule.value
                      (FeatureFusionModule.init (act_hub unit_parameters) 384 256 "relu"
                         (p_ffm_conv1 unit_parameters) (p_ffm_conv2_0 unit_parameters)
                         (p_ffm_conv2_2 unit_parameters)) x_s x_c in
          let* y := SegHead (act_hub unit_parameters) 256 19 "relu" 128
                            (p_seg_0 unit_parameters) (p_seg_1 unit_parameters) y in
          interpolate_size y (64, 32)).
Proof.
  destruct (concat_order unit_parameters 19 "resnet18" "relu"
              (built unit_parameters 19 3 "relu"
                 (built_context_path unit_parameters 256 torchvision.BasicBlock
                                     unit_weights))
              [full (Shape 1 3 64 32) 0%R] 0 (full (Shape 1 3 64 32) 0%R) 1 64 32)
    as (x_s & x_c & xcat & _ & Hs & _ & Hc & Hcat & Hn & Hlow & Hhigh & _ & Hrun).
  - reflexivity.
  - reflexivity.
  - reflexivity.
  - lia.
  - lia.
  - lia.
  - exists 2. reflexivity.
  - exists 1. reflexivity.
  - exists x_s, x_c, xcat. repeat (split; [assumption |]).
    split; [apply Hlow; lia |]. split; [apply (Hhigh 0 128 0 0); lia |]. exact Hrun.
Defined.

(** C10. In [AttentionRefinementModule] and in [FeatureFusionModule] the
    gate has one value per batch element and channel, the same at every
    position of the image, so every pixel of a channel is multiplied by
    that one number. *)
Theorem gates_spatially_constant :
  (forall (hub : string -> R -> R) (channels : nat) (p : conv_bn_params)
          (s : store) (x : loc) (t : tensor) (B H W : nat),
     s !! x = Some t ->
     size t = Shape B channels H W -> 0 < channels -> 0 < H -> 0 < W ->
     exists g out,
       AttentionRefinementModule.gate (AttentionRefinementModule.init hub channels p) t
         = inr g
       /\ size g = size t
       /\ spatially_constant g
       /\ run_tensor
            (AttentionRefinementModule.forward
               (AttentionRefinementModule.init hub channels p) x) s = inr out
       /\ forall n c h w, in_bounds (size t) n c h w ->
            data out n c h w = (data t n c h w * data g n c 0%nat 0%nat)%R)
  /\
  (forall (hub : string -> R -> R) (cin cout : nat) (act_type : string)
          (p1 : conv_bn_params) (w0 w2 : entries) (s : store) (x_low x_high : loc)
          (t_low t_high : tensor) (B c1 c2 H W : nat),
     s !! x_low = Some t_low -> s !! x_high = Some t_high ->
     size t_low = Shape B c1 H W -> size t_high = Shape B c2 H W -> c1 + c2 = cin ->
     0 < cout -> 0 < H -> 0 < W ->
     exists x g out,
       FeatureFusionModule.fused
         (FeatureFusionModule.init hub cin cout act_type p1 w0 w2) t_low t_high = inr x
       /\ FeatureFusionModule.gate
            (FeatureFusionModule.init hub cin cout act_type p1 w0 w2) x = inr g
       /\ size g = size x
       /\ spatially_constant g
       /\ run_tensor
            (FeatureFusionModule.forward
               (FeatureFusionModule.init hub cin cout act_type p1 w0 w2) x_low x_high) s
          = inr out
       /\ forall n c h w, in_bounds (size x) n c h w ->
            data out n c h w = (data x n c h w + data x n c h w * data g n c 0%nat 0%nat)%R).
Proof.
  split.
  - intros hub channels p s x t B H W Hx Ht Hc HH HW.
    destruct (ARM_gate_maps hub channels p B H W Hc HH HW t Ht) as (g & Hg & Hsz).
    rewrite <- Ht in Hsz.
    destruct (ARM_run_entries _ s x t g Hx Hg Hsz) as (out & Hrun & _ & Hdata).
    assert (Hconst : spatially_constant g).
    { apply (pooled_gate_constant
               (ConvBNAct hub channels channels 1 1 "sigmoid" p) t g);
        [apply ConvBNAct_1x1_keeps | exact Hg]. }
    exists g, out. repeat (split; [assumption |]).
    intros n c h w Hb. rewrite (Hdata n c h w Hb). f_equal.
    destruct Hb as (_ & _ & Hh & Hw). rewrite <- Hsz in Hh, Hw.
    apply Hconst; (assumption || lia).
  - intros hub cin cout act_type p1 w0 w2 s x_low x_high t_low t_high B c1 c2 H W
           Hl Hh Hsl Hsh Hc Hco HH HW.
    destruct (FFM_fused_size hub cin cout act_type p1 w0 w2 t_low t_high B c1 c2 H W
                Hsl Hsh Hc HH HW) as (x & Hx & Hsx).
    destruct (FFM_gate_maps hub cin cout act_type p1 w0 w2 B H W Hco HH HW x Hsx)
      as (g & Hg & Hsz).
    rewrite <- Hsx in Hsz.
    destruct (FFM_run_entries _ s x_low x_high t_low t_high x g Hl Hh Hx Hg Hsz)
      as (out & Hrun & _ & Hdata).
    assert (Hconst : spatially_constant g).
    { apply (pooled_gate_constant
               (Sequential [conv1x1 cout cout w0; ReLU; conv1x1 cout cout w2; Sigmoid])
               x g); [apply FFM_conv2_keeps | exact Hg]. }
    exists x, g, out. repeat (split; [assumption |]).
    intros n c h w Hb. rewrite (Hdata n c h w Hb). do 2 f_equal.
    destruct Hb as (_ & _ & Hh' & Hw'). rewrite <- Hsz in Hh', Hw'.
    apply Hconst; (assumption || lia).
Qed.

Lemma gates_spatially_constant_witness :
  exists g out,
    AttentionRefinementModule.gate
      (AttentionRefinementModule.init (fun _ v => v) 2 unit_conv_bn)
      (full (Shape 1 2 2 2) 1%R) = inr g
    /\ spatially_constant g
    /\ run_tensor
         (AttentionRefinementModule.forward
            (AttentionRefinementModule.init (fun _ v => v) 2 unit_conv_bn) 0)
         [full (Shape 1 2 2 2) 1%R] = inr out
    /\ data out 0 1 1 1 = (1 * data g 0%nat 1%nat 0%nat 0%nat)%R.
Proof.
  destruct gates_spatially_constant as [Harm _].
  destruct (Harm (fun _ v => v) 2 unit_conv_bn [full (Shape 1 2 2 2) 1%R] 0
              (full (Shape 1 2 2 2) 1%R) 1 2 2)
    as (g & out & Hg & _ & Hconst & Hrun & Hdata).
  - reflexivity.
  - reflexivity.
  - lia.
  - lia.
  - lia.
  - exists g, out. repeat (split; [assumption |]).
    apply (Hdata 0 1 1 1). unfold in_bounds. simpl. lia.
Defined.

(** * Further properties of the modules *)

(** ** Sizes rounded up, and refused sizes *)

Ltac lia_div := zify; Z.to_euclidean_division_equations; lia.

Lemma conv_out_up (h k p : nat) :
  0 < h -> (k = 3 /\ p = 1) \/ (k = 7 /\ p = 3) -> conv_out h k 2 p = inr (ceil_div h 2).
Proof.
  intros Hh Hk. unfold conv_out, ceil_div.
  destruct (Nat.ltb_spec (h + 2 * p) k) as [Hlt | Hge]; [lia |].
  f_equal. destruct Hk as [[-> ->] | [-> ->]]; lia_div.
Qed.

Lemma conv_out_empty (k s p : nat) : 2 * p < k -> conv_out 0 k s p = inl RuntimeError.
Proof.
  intros H. unfold conv_out. destruct (Nat.ltb_spec (0 + 2 * p) k); [reflexivity | lia].
Qed.

Lemma ceil_div_pos (h d : nat) : 0 < h -> 0 < d -> 0 < ceil_div h d.
Proof.
  intros Hh Hd. unfold ceil_div.
  apply (Nat.div_str_pos (h + d - 1) d). lia.
Qed.

Lemma ceil_div_2_2 (h : nat) : ceil_div (ceil_div h 2) 2 = ceil_div h 4.
Proof. unfold ceil_div. lia_div. Qed.

Lemma ceil_div_4_2 (h : nat) : ceil_div (ceil_div h 4) 2 = ceil_div h 8.
Proof. unfold ceil_div. lia_div. Qed.

Lemma ceil_div_8_2 (h : nat) : ceil_div (ceil_div h 8) 2 = ceil_div h 16.
Proof. unfold ceil_div. lia_div. Qed.

Lemma ceil_div_16_2 (h : nat) : ceil_div (ceil_div h 16) 2 = ceil_div h 32.
Proof. unfold ceil_div. lia_div. Qed.

Lemma near_32_spec (h : nat) :
  near_32 h = true <-> 0 < h /\ 4 * ceil_div h 32 = ceil_div h 8.
Proof.
  unfold near_32, ceil_div.
  rewrite andb_true_iff, orb_true_iff, Nat.ltb_lt, Nat.eqb_eq, Nat.leb_le.
  split.
  - intros [Hh Hm]. split; [exact Hh |]. lia_div.
  - intros [Hh Hm]. split; [exact Hh |]. lia_div.
Qed.

Lemma near_32_by_16_spec (h : nat) :
  near_32_by_16 h = true <-> 0 < h /\ 2 * ceil_div h 32 = ceil_div h 16.
Proof.
  unfold near_32_by_16, ceil_div.
  rewrite andb_true_iff, orb_true_iff, Nat.ltb_lt, Nat.eqb_eq, Nat.leb_le.
  split.
  - intros [Hh Hm]. split; [exact Hh |]. lia_div.
  - intros [Hh Hm]. split; [exact Hh |]. lia_div.
Qed.

Lemma near_32_halves (h : nat) :
  near_32 h = true <->
  near_32_by_16 h = true /\ 2 * ceil_div h 16 = ceil_div h 8.
Proof.
  rewrite near_32_spec, near_32_by_16_spec. unfold ceil_div. split.
  - intros [Hh Hm]. repeat split; [exact Hh | lia_div | lia_div].
  - intros [[Hh H1] H2]. split; [exact Hh | lia_div].
Qed.

Lemma multiple_near_32 (h : nat) : 0 < h -> Nat.divide 32 h -> near_32 h = true.
Proof.
  intros Hh [k ->]. unfold near_32.
  rewrite Nat.Div0.mod_mul, Nat.eqb_refl, andb_true_r. now apply Nat.ltb_lt.
Qed.

Lemma conv_out_error (n k s p : nat) (e : exn) : conv_out n k s p = inl e -> e = RuntimeError.
Proof. unfold conv_out. destruct (_ <? _); [intros [= <-]; reflexivity | discriminate]. Qed.

Lemma Conv2d_reject (cin cout k s p : nat) (wt : entries) (x : tensor) :
  chans (size x) <> cin
  \/ conv_out (height (size x)) k s p = inl RuntimeError
  \/ conv_out (width (size x)) k s p = inl RuntimeError ->
  Conv2d cin cout k s p wt x = inl RuntimeError.
Proof.
  intros Hrej. unfold Conv2d.
  destruct (Nat.eqb_spec (chans (size x)) cin) as [Hc | Hc]; [| reflexivity].
  destruct Hrej as [Hn | [Hh | Hw]]; [contradiction | now rewrite Hh |].
  destruct (conv_out (height (size x)) k s p) as [e | h] eqn:E; cbn [rbind].
  - now rewrite (conv_out_error _ _ _ _ _ E).
  - now rewrite Hw.
Qed.

Lemma opaque_reject (cin cout k s p : nat) (f : tensor -> entries) (x : tensor) :
  chans (size x) <> cin
  \/ conv_out (height (size x)) k s p = inl RuntimeError
  \/ conv_out (width (size x)) k s p = inl RuntimeError ->
  torchvision.opaque cin cout k s p f x = inl RuntimeError.
Proof.
  intros Hrej. unfold torchvision.opaque.
  destruct (Nat.eqb_spec (chans (size x)) cin) as [Hc | Hc]; [| reflexivity].
  destruct Hrej as [Hn | [Hh | Hw]]; [contradiction | now rewrite Hh |].
  destruct (conv_out (height (size x)) k s p) as [e | h] eqn:E; cbn [rbind].
  - now rewrite (conv_out_error _ _ _ _ _ E).
  - now rewrite Hw.
Qed.

Lemma ConvBNAct_reject (hub : string -> R -> R) (cin cout k s : nat) (act_type : string)
    (p : conv_bn_params) (x : tensor) :
  chans (size x) <> cin
  \/ conv_out (height (size x)) k s ((k - 1) / 2) = inl RuntimeError
  \/ conv_out (width (size x)) k s ((k - 1) / 2) = inl RuntimeError ->
  ConvBNAct hub cin cout k s act_type p x = inl RuntimeError.
Proof.
  intros Hrej. unfold ConvBNAct. rewrite Sequential_cons.
  now rewrite (Conv2d_reject _ _ _ _ _ _ _ Hrej).
Qed.

(** A convolution block of kernel 3 or 1 refuses exactly the inputs with
    another channel count or without pixels. *)
Lemma conv_refuses (x : tensor) (cin k s : nat) :
  k = 1 \/ k = 3 ->
  (chans (size x) =? cin) && (0 <? height (size x)) && (0 <? width (size x)) = false ->
  chans (size x) <> cin
  \/ conv_out (height (size x)) k s ((k - 1) / 2) = inl RuntimeError
  \/ conv_out (width (size x)) k s ((k - 1) / 2) = inl RuntimeError.
Proof.
  intros Hk Hb.
  assert (Hp : 2 * ((k - 1) / 2) < k) by (destruct Hk as [-> | ->]; simpl; lia).
  destruct (Nat.eqb_spec (chans (size x)) cin) as [Hc | Hc]; [right | now left].
  destruct (Nat.ltb_spec 0 (height (size x))) as [Hh | Hh].
  - destruct (Nat.ltb_spec 0 (width (size x))) as [Hw | Hw]; [discriminate Hb |].
    right. replace (width (size x)) with 0 by lia. now apply conv_out_empty.
  - left. replace (height (size x)) with 0 by lia. now apply conv_out_empty.
Qed.

Lemma accepted_size (x : tensor) (cin : nat) :
  (chans (size x) =? cin) && (0 <? height (size x)) && (0 <? width (size x)) = true ->
  size x = Shape (batch (size x)) cin (height (size x)) (width (size x))
  /\ 0 < height (size x) /\ 0 < width (size x).
Proof.
  rewrite !andb_true_iff, Nat.eqb_eq, !Nat.ltb_lt. intros [[Hc Hh] Hw].
  split; [| auto]. destruct (size x); simpl in *. now subst.
Qed.

Lemma SpatialPath_maps_up (hub : string -> R -> R) (cin cout : nat) (act_type : string)
    (p0 p1 p2 : conv_bn_params) (n h w : nat) :
  0 < h -> 0 < w ->
  maps (SpatialPath hub cin cout act_type p0 p1 p2)
       (Shape n cin h w) (Shape n cout (ceil_div h 8) (ceil_div w 8)).
Proof.
  intros Hh Hw. unfold SpatialPath.
  rewrite <- (ceil_div_4_2 h), <- (ceil_div_4_2 w), <- (ceil_div_2_2 h), <- (ceil_div_2_2 w).
  pose proof (ceil_div_pos h 2 Hh ltac:(lia)) as Hh2.
  pose proof (ceil_div_pos w 2 Hw ltac:(lia)) as Hw2.
  pose proof (ceil_div_pos _ 2 Hh2 ltac:(lia)) as Hh4.
  pose proof (ceil_div_pos _ 2 Hw2 ltac:(lia)) as Hw4.
  eapply maps_cons; [apply ConvBNAct_maps; apply conv_out_up; auto |].
  eapply maps_cons; [apply ConvBNAct_maps; apply conv_out_up; auto |].
  eapply maps_cons; [apply ConvBNAct_maps; apply conv_out_up; auto |].
  apply maps_nil.
Qed.

(** X1. [SpatialPath] accepts exactly the inputs with [in_channels] channels
    and at least one pixel; it returns [out_channels] channels at one eighth
    of the height and of the width, rounded up, and raises a size error on
    every other input. *)
Theorem spatial_path_sizes (hub : string -> R -> R) (in_channels out_channels : nat)
    (act_type : string) (p0 p1 p2 : conv_bn_params) (x : tensor) :
  result_size (SpatialPath hub in_channels out_channels act_type p0 p1 p2 x) =
  size_if ((chans (size x) =? in_channels) && (0 <? height (size x))
           && (0 <? width (size x)))
          (Shape (batch (size x)) out_channels
                 (ceil_div (height (size x)) 8) (ceil_div (width (size x)) 8)).
Proof.
  destruct ((chans (size x) =? in_channels) && (0 <? height (size x))
            && (0 <? width (size x))) eqn:Hb; cbn [size_if].
  - destruct (accepted_size x in_channels Hb) as (Hx & Hh & Hw).
    destruct (SpatialPath_maps_up hub in_channels out_channels act_type p0 p1 p2
                _ _ _ Hh Hw x Hx) as (y & -> & Hy).
    cbn [result_size rbind]. now rewrite Hy.
  - unfold SpatialPath. rewrite Sequential_cons.
    rewrite (ConvBNAct_reject hub in_channels out_channels 3 2 act_type p0 x
               (conv_refuses x in_channels 3 2 (or_intror eq_refl) Hb)).
    reflexivity.
Qed.


(** ** The attention modules on every input *)

Lemma pool_reject (x : tensor) :
  (chans (size x) =? 0) || (height (size x) =? 0) || (width (size x) =? 0) = true ->
  AdaptiveAvgPool2d_1 x = inl RuntimeError.
Proof. intros H. unfold AdaptiveAvgPool2d_1. now rewrite H. Qed.









Lemma cat_reject (a b : tensor) :
  ~ (batch (size a) = batch (size b) /\ height (size a) = height (size b)
     /\ width (size a) = width (size b)) ->
  cat a b = inl RuntimeError.
Proof.
  intros Hn. unfold cat.
  destruct (decide (batch (size a) = batch (size b) /\ height (size a) = height (size b)
                    /\ width (size a) = width (size b))); [contradiction | reflexivity].
Qed.

Lemma fusible_spec (a b : shape) (channels : nat) :
  fusible a b channels = true <->
  batch a = batch b /\ height a = height b /\ width a = width b
  /\ chans a + chans b = channels /\ 0 < height a /\ 0 < width a.
Proof.
  unfold fusible. rewrite !andb_true_iff, !Nat.eqb_eq, !Nat.ltb_lt. tauto.
Qed.

Lemma FFM_value_reject (hub : string -> R -> R) (cin cout : nat) (act_type : string)
    (p1 : conv_bn_params) (w0 w2 : entries) (t_low t_high : tensor) :
  fusible (size t_low) (size t_high) cin && (0 <? cout) = false ->
  FeatureFusionModule.value (FeatureFusionModule.init hub cin cout act_type p1 w0 w2)
                            t_low t_high = inl RuntimeError.
Proof.
  intros Hb. unfold FeatureFusionModule.value, FeatureFusionModule.fused.
  cbn [FeatureFusionModule.conv1 FeatureFusionModule.init].
  destruct (decide (batch (size t_low) = batch (size t_high)
                    /\ height (size t_low) = height (size t_high)
                    /\ width (size t_low) = width (size t_high))) as [(Hn & Hh & Hw) | Hn];
    [| now rewrite (cat_reject _ _ Hn)].
  rewrite (cat_eq t_low t_high (batch (size t_low)) (chans (size t_low))
             (chans (size t_high)) (height (size t_low)) (width (size t_low)))
    by (destruct (size t_low), (size t_high); simpl in *; congruence).
  cbn [rbind].
  destruct (fusible (size t_low) (size t_high) cin) eqn:Hf.
  - apply fusible_spec in Hf. destruct Hf as (_ & _ & _ & Hc & Hh0 & Hw0).
    destruct (Nat.ltb_spec 0 cout) as [Hco | Hco]; [discriminate Hb |].
    destruct (ConvBNAct_maps hub cin cout 3 1 act_type p1 (batch (size t_low))
                (height (size t_low)) (width (size t_low)) _ _
                (conv_out_same _ 3 Hh0 (or_intror eq_refl))
                (conv_out_same _ 3 Hw0 (or_intror eq_refl))
                (Tensor (Shape (batch (size t_low)) (chans (size t_low) + chans (size t_high))
                               (height (size t_low)) (width (size t_low)))
                        (fun i c j k =>
                           if c <? chans (size t_low) then data t_low i c j k
                           else data t_high i (c - chans (size t_low)) j k)))
      as (y & -> & Hy); [cbn [size]; now rewrite Hc |].
    cbn [rbind]. unfold FeatureFusionModule.gate.
    cbn [FeatureFusionModule.pool FeatureFusionModule.init].
    rewrite pool_reject; [reflexivity |]. rewrite Hy. cbn [chans].
    replace cout with 0 by lia. reflexivity.
  - rewrite ConvBNAct_reject; [reflexivity |]. cbn [size chans height width].
    destruct (Nat.eqb_spec (chans (size t_low) + chans (size t_high)) cin) as [Hc | Hc];
      [right | now left].
    destruct (Nat.ltb_spec 0 (height (size t_low))) as [Hh0 | Hh0].
    + destruct (Nat.ltb_spec 0 (width (size t_low))) as [Hw0 | Hw0].
      * exfalso. assert (fusible (size t_low) (size t_high) cin = true);
          [apply fusible_spec; auto 10 | congruence].
      * right. replace (width (size t_low)) with 0 by lia.
        apply conv_out_empty. simpl. lia.
    + left. replace (height (size t_low)) with 0 by lia.
      apply conv_out_empty. simpl. lia.
Qed.





(** ** The backbone on every input *)

Lemma ResNet_value_size_up (b : torchvision.block) (W : torchvision.weights) (x : tensor)
    (n h w : nat) :
  size x = Shape n 3 h w -> 0 < h -> 0 < w ->
  exists x_32 x_16,
    ResNet.value (ResNet.wrap (torchvision.make b W)) x = inr (x_32, x_16)
    /\ size x_32 = Shape n (512 * torchvision.expansion b) (ceil_div h 32) (ceil_div w 32)
    /\ size x_16 = Shape n (256 * torchvision.expansion b) (ceil_div h 16) (ceil_div w 16).
Proof.
  intros Hx Hh Hw. unfold ResNet.value, ResNet.wrap, torchvision.make.
  cbn [ResNet.conv1 ResNet.bn1 ResNet.relu ResNet.maxpool ResNet.layer1 ResNet.layer2
       ResNet.layer3 ResNet.layer4 torchvision.conv1 torchvision.bn1 torchvision.relu
       torchvision.maxpool torchvision.layer1 torchvision.layer2 torchvision.layer3
       torchvision.layer4].
  set (e := torchvision.expansion b).
  assert (P2 : 0 < ceil_div h 2 /\ 0 < ceil_div w 2) by (split; apply ceil_div_pos; lia).
  assert (P4 : 0 < ceil_div h 4 /\ 0 < ceil_div w 4) by (split; apply ceil_div_pos; lia).
  assert (P8 : 0 < ceil_div h 8 /\ 0 < ceil_div w 8) by (split; apply ceil_div_pos; lia).
  assert (P16 : 0 < ceil_div h 16 /\ 0 < ceil_div w 16) by (split; apply ceil_div_pos; lia).
  destruct P2 as [Ph2 Pw2], P4 as [Ph4 Pw4], P8 as [Ph8 Pw8], P16 as [Ph16 Pw16].
  destruct (Conv2d_maps 3 64 7 2 3 (torchvision.w_conv1 W) n h w _ _
              (conv_out_up h 7 3 Hh ltac:(auto)) (conv_out_up w 7 3 Hw ltac:(auto)) x Hx)
    as (y1 & -> & H1).
  cbn [rbind].
  destruct (BatchNorm2d_maps (torchvision.w_bn1 W) n 64 _ _ y1 H1) as (y2 & -> & H2).
  cbn [rbind].
  destruct (pointwise_maps relu _ y2 H2) as (y3 & E3 & H3).
  change (pointwise relu) with ReLU in E3. rewrite E3. cbn [rbind].
  destruct (MaxPool2d_maps 3 2 1 (torchvision.w_maxpool W) n 64 _ _ _ _
              (conv_out_up _ 3 1 Ph2 ltac:(auto)) (conv_out_up _ 3 1 Pw2 ltac:(auto)) y3 H3)
    as (y4 & -> & H4).
  cbn [rbind]. rewrite !ceil_div_2_2 in H4.
  destruct (opaque_maps 64 (64 * e) 3 1 1 (torchvision.w_layer W 1) n _ _ _ _
              (conv_out_same _ 3 Ph4 (or_intror eq_refl))
              (conv_out_same _ 3 Pw4 (or_intror eq_refl)) y4 H4) as (y5 & -> & H5).
  cbn [rbind].
  destruct (opaque_maps (64 * e) (128 * e) 3 2 1 (torchvision.w_layer W 2) n _ _ _ _
              (conv_out_up _ 3 1 Ph4 ltac:(auto)) (conv_out_up _ 3 1 Pw4 ltac:(auto)) y5 H5)
    as (y6 & -> & H6).
  cbn [rbind]. rewrite !ceil_div_4_2 in H6.
  destruct (opaque_maps (128 * e) (256 * e) 3 2 1 (torchvision.w_layer W 3) n _ _ _ _
              (conv_out_up _ 3 1 Ph8 ltac:(auto)) (conv_out_up _ 3 1 Pw8 ltac:(auto)) y6 H6)
    as (y7 & -> & H7).
  cbn [rbind]. rewrite !ceil_div_8_2 in H7.
  destruct (opaque_maps (256 * e) (512 * e) 3 2 1 (torchvision.w_layer W 4) n _ _ _ _
              (conv_out_up _ 3 1 Ph16 ltac:(auto)) (conv_out_up _ 3 1 Pw16 ltac:(auto)) y7 H7)
    as (y8 & -> & H8).
  cbn [rbind]. rewrite !ceil_div_16_2 in H8. eauto.
Qed.

Lemma ResNet_value_reject (b : torchvision.block) (W : torchvision.weights) (x : tensor) :
  (chans (size x) =? 3) && (0 <? height (size x)) && (0 <? width (size x)) = false ->
  ResNet.value (ResNet.wrap (torchvision.make b W)) x = inl RuntimeError.
Proof.
  intros Hb. unfold ResNet.value, ResNet.wrap, torchvision.make.
  cbn [ResNet.conv1 torchvision.conv1].
  rewrite Conv2d_reject; [reflexivity |].
  destruct (Nat.eqb_spec (chans (size x)) 3) as [Hc | Hc]; [right | now left].
  destruct (Nat.ltb_spec 0 (height (size x))) as [Hh | Hh].
  - destruct (Nat.ltb_spec 0 (width (size x))) as [Hw | Hw]; [discriminate Hb |].
    right. replace (width (size x)) with 0 by lia. apply conv_out_empty. lia.
  - left. replace (height (size x)) with 0 by lia. apply conv_out_empty. lia.
Qed.

(** X7. [ResNet.__init__] returns a backbone exactly for the five names of
    its table, holding the eight layers of the library's network of that
    name built with the given [pretrained] flag; every other name, whatever
    it contains, raises the ValueError that quotes it. *)
Theorem resnet_init_cases (Z : string -> bool -> torchvision.weights) (resnet_type : string)
    (pretrained : bool) :
  (In resnet_type supported ->
   ResNet.init Z resnet_type pretrained
   = inr (ResNet.wrap (torchvision.make (block_of resnet_type) (Z resnet_type pretrained))))
  /\ (~ In resnet_type supported ->
      ResNet.init Z resnet_type pretrained
      = inl (ValueError ("Unsupported ResNet type: " +:+ resnet_type +:+ "." +:+ newline))).
Proof.
  split.
  - intros Hin. simpl in Hin.
    destruct Hin as [<- | [<- | [<- | [<- | [<- | []]]]]]; reflexivity.
  - intros Hn. unfold ResNet.init. now rewrite (dict_get_hub_None Z resnet_type Hn).
Qed.

Lemma resnet_init_cases_witness :
  ResNet.init (fun _ _ => unit_weights) "resnet101" false
  = inr (ResNet.wrap (torchvision.make torchvision.Bottleneck unit_weights))
  /\ ResNet.init (fun _ _ => unit_weights) "Resnet18" true
     = inl (ValueError ("Unsupported ResNet type: " +:+ "Resnet18" +:+ "." +:+ newline)).
Proof.
  split.
  - apply (resnet_init_cases (fun _ _ => unit_weights) "resnet101" false).
    simpl. tauto.
  - apply (resnet_init_cases (fun _ _ => unit_weights) "Resnet18" true).
    simpl. intros [H | [H | [H | [H | [H | []]]]]]; discriminate H.
Defined.




(** ** The context path and the model on every input *)

Lemma result_size_inl (r : result tensor) (e : exn) : result_size r = inl e -> r = inl e.
Proof. destruct r; [intros [= ->]; reflexivity | discriminate]. Qed.

Lemma result_size_inr (r : result tensor) (sh : shape) :
  result_size r = inr sh -> exists y, r = inr y /\ size y = sh.
Proof. destruct r as [e | y]; [discriminate | intros [= <-]; eauto]. Qed.

Lemma interpolate_reject (x : tensor) (sz : nat * nat) :
  chans (size x) = 0 -> interpolate_size x sz = inl RuntimeError.
Proof. intros H. unfold interpolate_size. rewrite H. reflexivity. Qed.

(** [a += b] with [b] of another height or width than [a], and more than one
    pixel in each direction, is refused. *)
Lemma iadd_value_mismatch (a b : tensor) (n c h w h' w' : nat) :
  size a = Shape n c h w -> size b = Shape n c h' w' ->
  2 <= h' -> 2 <= w' -> ~ (h' = h /\ w' = w) ->
  iadd_value a b = inl RuntimeError.
Proof.
  intros Ha Hb Hh Hw Hne. unfold iadd_value, add, pointwise2, broadcast.
  rewrite Ha, Hb. cbn [batch chans height width].
  rewrite !broadcast_dim_same. cbn [rbind]. unfold broadcast_dim.
  destruct (Nat.eqb_spec h h') as [Eh | Eh].
  - cbn [rbind]. destruct (Nat.eqb_spec w w') as [Ew | Ew]; [lia |].
    destruct (Nat.eqb_spec w 1) as [E1 | E1]; cbn [rbind size].
    + destruct (decide _) as [Hd | Hd]; [| reflexivity]. injection Hd. lia.
    + destruct (Nat.eqb_spec w' 1); [lia | reflexivity].
  - destruct (Nat.eqb_spec h 1) as [E1 | E1]; cbn [rbind].
    + destruct (w =? w'); [| destruct (w =? 1); [| destruct (w' =? 1)]];
        cbn [rbind size]; try reflexivity;
        (destruct (decide _) as [Hd | Hd]; [injection Hd; lia | reflexivity]).
    + destruct (Nat.eqb_spec h' 1); [lia | reflexivity].
Qed.

Lemma ContextPath_steps_closed (P : parameters) (out_channels : nat)
    (b : torchvision.block) (W : torchvision.weights) (x : tensor) :
  result_size (ContextPath.steps (built_context_path P out_channels b W) x)
  = size_if ((chans (size x) =? 3) && near_32_by_16 (height (size x))
             && near_32_by_16 (width (size x)) && (0 <? out_channels))
            (Shape (batch (size x)) out_channels
                   (4 * ceil_div (height (size x)) 32) (4 * ceil_div (width (size x)) 32)).
Proof.
  unfold ContextPath.steps, built_context_path.
  cbn [ContextPath.backbone ContextPath.pool ContextPath.arm_16 ContextPath.arm_32
       ContextPath.conv_16 ContextPath.conv_32].
  pose proof (expansion_pos b) as He.
  destruct ((chans (size x) =? 3) && (0 <? height (size x)) && (0 <? width (size x)))
    eqn:Hacc.
  2:{ rewrite (ResNet_value_reject b W x Hacc). cbn [rbind result_size].
      unfold near_32_by_16.
      destruct (chans (size x) =? 3); [| reflexivity].
      destruct (0 <? height (size x)); [| reflexivity].
      destruct (0 <? width (size x)); [discriminate Hacc |].
      cbn [andb]. now rewrite andb_false_r. }
  destruct (accepted_size x 3 Hacc) as (Hx & Hh & Hw).
  set (n := batch (size x)) in *. set (h := height (size x)) in *.
  set (w := width (size x)) in *. set (e := torchvision.expansion b) in *.
  assert (P16 : 0 < ceil_div h 16 /\ 0 < ceil_div w 16) by (split; apply ceil_div_pos; lia).
  assert (P32 : 0 < ceil_div h 32 /\ 0 < ceil_div w 32) by (split; apply ceil_div_pos; lia).
  destruct P16 as [Ph16 Pw16], P32 as [Ph32 Pw32].
  destruct (ResNet_value_size_up b W x n h w Hx Hh Hw) as (x_32 & x_16 & -> & H32 & H16).
  fold e in H32, H16. cbn [rbind fst snd].
  rewrite (pool_eq x_32 n (512 * e) (ceil_div h 32) (ceil_div w 32))
    by (assumption || lia).
  cbn [rbind].
  pose proof (ARM_value_maps (act_hub P) (512 * e) (p_arm_32 P) n _ _
                ltac:(lia) Ph32 Pw32) as M1.
  use_maps M1.
  rewrite iadd_value_eq by (rewrite S; apply broadcast_pooled). cbn [rbind].
  pose proof (conv1x1_maps (512 * e) out_channels (p_conv_32 P) n _ _ Ph32 Pw32) as M2.
  use_maps M2.
  assert (Hch : (chans (size x) =? 3) = true) by (rewrite Hx; reflexivity).
  rewrite Hch. cbn [andb].
  destruct (Nat.ltb_spec 0 out_channels) as [Ho | Ho].
  2:{ unfold interpolate_scale. rewrite interpolate_reject by (rewrite S0; cbn; lia).
      cbn [rbind result_size]. now rewrite andb_false_r. }
  rewrite andb_true_r.
  pose proof (interpolate_scale_maps n out_channels _ _ 2 Ho Ph32 Pw32 ltac:(lia)) as M3.
  destruct (M3 y0 S0) as (u32 & -> & Hu32). cbn [rbind].
  pose proof (ARM_value_maps (act_hub P) (256 * e) (p_arm_16 P) n _ _
                ltac:(lia) Ph16 Pw16) as M4.
  use_maps M4.
  pose proof (conv1x1_maps (256 * e) out_channels (p_conv_16 P) n _ _ Ph16 Pw16) as M5.
  use_maps M5.
  destruct (near_32_by_16 h && near_32_by_16 w) eqn:Hnear; cbn [size_if].
  - apply andb_true_iff in Hnear. destruct Hnear as [Nh Nw].
    apply near_32_by_16_spec in Nh, Nw. destruct Nh as [_ Nh], Nw as [_ Nw].
    rewrite iadd_value_eq
      by (rewrite S2, Hu32, Nh, Nw; apply broadcast_same).
    cbn [rbind].
    pose proof (interpolate_scale_maps n out_channels _ _ 2 Ho Ph16 Pw16 ltac:(lia)) as M6.
    match goal with
    | |- context [interpolate_scale ?t 2] => destruct (M6 t S2) as (r & -> & Hr)
    end.
    cbn [result_size rbind]. rewrite Hr. f_equal. f_equal; lia.
  - rewrite (iadd_value_mismatch _ _ n out_channels _ _ _ _ S2 Hu32)
      by (try lia;
          intros [E1 E2];
          assert (near_32_by_16 h = true) by (apply near_32_by_16_spec; auto);
          assert (near_32_by_16 w = true) by (apply near_32_by_16_spec; auto);
          rewrite H, H0 in Hnear; discriminate).
    reflexivity.
Qed.



Lemma BiSeNetv1_value_closed (P : parameters) (num_class n_channel : nat)
    (act_type : string) (b : torchvision.block) (W : torchvision.weights) (x : tensor) :
  result_size
    (BiSeNetv1.value (built P num_class n_channel act_type (built_context_path P 256 b W)) x)
  = size_if ((n_channel =? 3) && (chans (size x) =? 3) && near_32 (height (size x))
             && near_32 (width (size x)) && (0 <? num_class))
            (Shape (batch (size x)) num_class (height (size x)) (width (size x))).
Proof.
  unfold BiSeNetv1.value, built.
  cbn [BiSeNetv1.spatial_path BiSeNetv1.context_path BiSeNetv1.ffm BiSeNetv1.seg_head].
  set (n := batch (size x)). set (h := height (size x)). set (w := width (size x)).
  (* the spatial path *)
  pose proof (spatial_path_sizes (act_hub P) n_channel 128 act_type (p_spatial_0 P)
                (p_spatial_1 P) (p_spatial_2 P) x) as Hsp.
  fold n h w in Hsp.
  destruct ((chans (size x) =? n_channel) && (0 <? h) && (0 <? w)) eqn:Hacc;
    cbn [size_if] in Hsp.
  2:{ rewrite (result_size_inl _ _ Hsp). cbn [rbind result_size]. unfold near_32.
      destruct (Nat.eqb_spec n_channel 3) as [-> | _]; [| reflexivity].
      cbn [andb]. destruct (chans (size x) =? 3); [| reflexivity].
      cbn [andb] in *. destruct (0 <? h); [| reflexivity].
      cbn [andb] in *. rewrite Hacc. cbn [andb]. now rewrite andb_false_r. }
  destruct (result_size_inr _ _ Hsp) as (x_s & -> & Hs). cbn [rbind].
  rewrite !andb_true_iff, Nat.eqb_eq, !Nat.ltb_lt in Hacc. destruct Hacc as [[Hc Hh] Hw].
  (* the context path *)
  pose proof (ContextPath_steps_closed P 256 b W x) as Hcp. fold n h w in Hcp.
  destruct ((chans (size x) =? 3) && near_32_by_16 h && near_32_by_16 w && (0 <? 256))
    eqn:Hok; cbn [size_if] in Hcp.
  2:{ rewrite (result_size_inl _ _ Hcp). cbn [rbind result_size].
      destruct (n_channel =? 3); [| reflexivity]. cbn [andb].
      destruct (chans (size x) =? 3); [| reflexivity]. cbn [andb] in *.
      rewrite andb_true_r in Hok.
      destruct (near_32 h) eqn:Nh; [| reflexivity].
      destruct (near_32 w) eqn:Nw; [| reflexivity].
      apply near_32_halves in Nh, Nw. destruct Nh as [Nh _], Nw as [Nw _].
      rewrite Nh, Nw in Hok. discriminate. }
  destruct (result_size_inr _ _ Hcp) as (x_c & -> & Hcs). cbn [rbind].
  rewrite !andb_true_iff, Nat.eqb_eq in Hok. destruct Hok as [[[Hc3 Nh] Nw] _].
  assert (Hn3 : n_channel = 3) by congruence.
  rewrite Hc3. replace (n_channel =? 3) with true by (symmetry; now apply Nat.eqb_eq).
  change (3 =? 3) with true. cbn [andb].
  pose proof Nh as Nh'. pose proof Nw as Nw'.
  apply near_32_by_16_spec in Nh', Nw'. destruct Nh' as [_ Eh], Nw' as [_ Ew].
  (* the fusion *)
  destruct (near_32 h && near_32 w) eqn:Hnear.
  2:{ rewrite FFM_value_reject; [reflexivity |].
      rewrite Hs, Hcs. unfold fusible. cbn [batch chans height width].
      destruct (Nat.eqb_spec (ceil_div h 8) (4 * ceil_div h 32)) as [E1 | E1];
        [| now rewrite Nat.eqb_refl].
      destruct (Nat.eqb_spec (ceil_div w 8) (4 * ceil_div w 32)) as [E2 | E2];
        [| now rewrite Nat.eqb_refl].
      assert (near_32 h = true) by (apply near_32_spec; split; [exact Hh | lia]).
      assert (near_32 w = true) by (apply near_32_spec; split; [exact Hw | lia]).
      rewrite H, H0 in Hnear. discriminate. }
  apply andb_true_iff in Hnear. destruct Hnear as [Mh Mw].
  apply near_32_spec in Mh, Mw. destruct Mh as [_ Mh], Mw as [_ Mw].
  rewrite <- Mh, <- Mw in Hs.
  pose proof (ceil_div_pos h 32 Hh ltac:(lia)) as Ph32.
  pose proof (ceil_div_pos w 32 Hw ltac:(lia)) as Pw32.
  destruct (FFM_value_size (act_hub P) 384 256 act_type (p_ffm_conv1 P) (p_ffm_conv2_0 P)
              (p_ffm_conv2_2 P) x_s x_c n 128 256 (4 * ceil_div h 32) (4 * ceil_div w 32)
              Hs Hcs eq_refl ltac:(lia) ltac:(lia) ltac:(lia)) as (y & -> & Hy).
  cbn [rbind].
  destruct (SegHead_maps (act_hub P) 256 num_class act_type 128 (p_seg_0 P) (p_seg_1 P)
              n (4 * ceil_div h 32) (4 * ceil_div w 32) ltac:(lia) ltac:(lia) y Hy)
    as (z & -> & Hz).
  cbn [rbind].
  destruct (Nat.ltb_spec 0 num_class) as [Hnc | Hnc]; cbn [size_if].
  - rewrite (interpolate_size_eq z n num_class (4 * ceil_div h 32) (4 * ceil_div w 32)
               h w Hz) by lia.
    reflexivity.
  - rewrite interpolate_reject by (rewrite Hz; cbn; lia). reflexivity.
Qed.



(** X12. A model constructed with [n_channel] other than 3 is constructed
    without complaint, and its [forward] raises on every input: the spatial
    path wants [n_channel] channels, the pretrained backbone wants 3. *)
Theorem forward_never_returns (P : parameters) (num_class n_channel : nat)
    (backbone_type act_type : string) (m : BiSeNetv1.t) (s : store) (x : loc) (t : tensor) :
  n_channel <> 3 ->
  BiSeNetv1.init P num_class n_channel backbone_type act_type = inr m ->
  s !! x = Some t ->
  run_tensor (BiSeNetv1.forward m x) s = inl RuntimeError.
Proof.
  intros Hn Hinit Hx.
  destruct (BiSeNetv1_init_inr _ _ _ _ _ _ Hinit) as [_ ->].
  rewrite (refines_run _ _ _ (BiSeNetv1_forward_refines _ s x t Hx)).
  apply result_size_inl. rewrite BiSeNetv1_value_closed.
  destruct (Nat.eqb_spec n_channel 3); [contradiction | reflexivity].
Qed.

Lemma forward_never_returns_witness :
  (exists m, BiSeNetv1.init unit_parameters 19 4 "resnet18" "relu" = inr m)
  /\ run_tensor
       (BiSeNetv1.forward
          (built unit_parameters 19 4 "relu"
             (built_context_path unit_parameters 256 torchvision.BasicBlock unit_weights)) 0)
       [full (Shape 1 4 64 64) 0%R] = inl RuntimeError.
Proof.
  split; [eexists; reflexivity |].
  apply (forward_never_returns unit_parameters 19 4 "resnet18" "relu" _
           [full (Shape 1 4 64 64) 0%R] 0 (full (Shape 1 4 64 64) 0%R)).
  - lia.
  - reflexivity.
  - reflexivity.
Defined.



(** ** Construction of the context path *)

Lemma prefix_spec (a s : string) :
  String.prefix a s = true <-> exists post, s = a +:+ post.
Proof.
  revert s. induction a as [| c a IH]; intros s.
  - split; [intros _; now exists s | intros _; destruct s; reflexivity].
  - destruct s as [| d s]; simpl.
    + split; [discriminate | intros [post H]; discriminate H].
    + destruct (Ascii.ascii_dec c d) as [<- | Hne].
      * rewrite IH. split; intros [post H]; exists post.
        -- rewrite H. reflexivity.
        -- change (String c a +:+ post) with (String c (a +:+ post)) in H.
           now injection H.
      * split; [discriminate |]. intros [post H].
        change (String c a +:+ post) with (String c (a +:+ post)) in H.
        injection H as H1 H2. congruence.
Qed.

(** [contains] is Python's [in] on strings: an occurrence as a contiguous
    substring. *)
Lemma contains_spec (sub s : string) :
  contains sub s = true <-> exists pre post, s = pre +:+ sub +:+ post.
Proof.
  split.
  - induction s as [| c s IH]; rewrite contains_unfold.
    + destruct (String.prefix sub "") eqn:E; [| discriminate].
      intros _. apply prefix_spec in E. destruct E as [post E]. now exists "", post.
    + destruct (String.prefix sub (String c s)) eqn:E.
      * intros _. apply prefix_spec in E. destruct E as [post E]. now exists "", post.
      * intros H. destruct (IH H) as (pre & post & ->). now exists (String c pre), post.
  - intros (pre & post & ->). apply contains_append, contains_prefix.
Qed.

(** X14. [ContextPath.__init__] is decided by the backbone name alone: a
    name without an occurrence of "resnet" raises NotImplementedError; a
    name with one that is none of the five names of the table raises the
    ValueError of [ResNet]; each of the five names gives the context path on
    that backbone, with attention modules and projections for its channel
    pair. The [act_type] argument has no influence. *)
Theorem context_path_init_cases (P : parameters) (out_channels : nat)
    (backbone_type act_type : string) :
  match ContextPath.init P out_channels backbone_type act_type with
  | inr cp =>
      In backbone_type supported
      /\ cp = built_context_path P out_channels (block_of backbone_type)
                                 (zoo P backbone_type true)
  | inl NotImplementedError =>
      ~ exists pre post, backbone_type = pre +:+ "resnet" +:+ post
  | inl (ValueError msg) =>
      (exists pre post, backbone_type = pre +:+ "resnet" +:+ post)
      /\ ~ In backbone_type supported
      /\ msg = "Unsupported ResNet type: " +:+ backbone_type +:+ "." +:+ newline
  | inl RuntimeError => False
  end.
Proof.
  destruct (in_dec String.string_dec backbone_type supported) as [Hin | Hn].
  - rewrite (ContextPath_init_supported P out_channels backbone_type act_type Hin). auto.
  - unfold ContextPath.init.
    destruct (contains "resnet" backbone_type) eqn:E.
    + unfold ResNet.init. rewrite (dict_get_hub_None (zoo P) backbone_type Hn).
      cbn [rbind raise]. split; [now apply contains_spec | auto].
    + cbn [raise]. intros Hex. apply contains_spec in Hex. congruence.
Qed.

(** Accepted and refused heights. *)
Example near_32_values :
  map near_32 [0; 24; 25; 32; 33; 56; 57; 60; 64; 512]
  = [false; false; true; true; false; false; true; true; true; true].
Proof. reflexivity. Qed.
